(** * awsls: the resource-listing and CSV-export pipeline of [main.go]

    A shallow embedding of [mainExitCode], [printResource],
    [printResourcesCsv], [printHeaderCsv] and [printHelp].  The program is
    an orchestration of calls into other packages ([resource], [aws],
    [util], [os], [encoding/csv], ...): those calls are the fields of the
    record [Externals], and everything [main.go] itself does (control flow,
    messages, panics, the accumulation of resources, the choice of the
    support map, the construction of rows) is written out below.

    Effects are threaded through a [World]: the error stream, the standard
    output, the log, the directories and CSV files on disk, and a trace of
    the calls to [resource.GetStates].  A computation either returns or
    panics. *)

From Stdlib Require Import ZArith String Ascii List.
From stdpp Require Import base strings gmap list.

Open Scope Z_scope.

(** ** Data *)

(** Go's [error], seen through its message. *)
Definition error := string.

Definition nl : string := String "010" EmptyString.

(** [util.AWSClientKey]: the (profile, region) pair a client and its
    provider are filed under. *)
Record AWSClientKey := { Profile : string; Region : string }.

#[global] Instance AWSClientKey_eq_dec : EqDecision AWSClientKey.
Proof. solve_decision. Defined.

#[global] Instance AWSClientKey_countable : Countable AWSClientKey.
Proof.
  refine (inj_countable' (fun k => (Profile k, Region k))
                         (fun p => {| Profile := p.1; Region := p.2 |}) _).
  by intros [].
Defined.

(** [strings.TrimSpace], on the white space of ASCII. *)
Definition isSpace (c : ascii) : bool :=
  match nat_of_ascii c with
  | 9%nat | 10%nat | 11%nat | 12%nat | 13%nat | 32%nat => true
  | _ => false
  end.

Fixpoint trimLeft (s : string) : string :=
  match s with
  | String c rest => if isSpace c then trimLeft rest else s
  | EmptyString => EmptyString
  end.

Definition TrimSpace (s : string) : string :=
  String.rev (trimLeft (String.rev (trimLeft s))).

(** The severities of [github.com/apex/log]. *)
Inductive Level := DebugLevel | InfoLevel | WarnLevel | ErrorLevel | FatalLevel.

(** [Debug] is the lowest severity.  The logger hands an entry to its
    handler unless the severity of the entry is below its level. *)
Definition levelRank (l : Level) : nat :=
  match l with
  | DebugLevel => 0
  | InfoLevel => 1
  | WarnLevel => 2
  | ErrorLevel => 3
  | FatalLevel => 4
  end.

(** One call to the logger: [log.WithFields(...).WithError(err).Debug(msg)]. *)
Record Entry := {
  entryLevel : Level;
  entryFields : list (string * string);
  entryError : option error;
  entryMessage : string
}.

(** The command line after [flags.Parse]; a list flag that was not given
    is the nil slice, [None]. *)
Definition handled (threshold : Level) (e : Entry) : bool :=
  (levelRank threshold <=? levelRank (entryLevel e))%nat.

Record Flags := {
  logDebug : bool;
  allProfilesFlag : bool;
  profiles : option (list string);
  regions : option (list string);
  version : bool
}.

(** ** Computations *)

Inductive Outcome (A : Type) :=
| Returned (a : A)
| Panicked (e : error).
Arguments Returned {A} a.
Arguments Panicked {A} e.

Section Pipeline.

(** [aws.Client], [provider.TerraformProvider] and [time.Time] are
    declared in other packages; [main.go] only passes them around. *)
Context {Client TerraformProvider Time : Type}.

(** Modelled from the spec: the struct [aws.Resource] is declared in
    package [aws]; [main.go] reads [Type], [ID] and [CreatedAt], the
    attribute values are what [resource.GetStates] fills in. *)
Record Resource := {
  Type_ : string;
  ID : string;
  CreatedAt : option Time;
  Attributes : gmap string string
}.

Record World := {
  stderr : list string;
  stdout : list string;
  logLevel : Level;
  logged : list Entry;
  dirs : gset string;
  files : gmap string (list (list string));
  hydrated : list (list Resource);
  closed : gset AWSClientKey
}.

Definition M (A : Type) : Type := World -> Outcome A * World.

Definition ret {A} (a : A) : M A := fun w => (Returned a, w).

Definition bind {A B} (m : M A) (k : A -> M B) : M B :=
  fun w =>
    match m w with
    | (Returned a, w') => k a w'
    | (Panicked e, w') => (Panicked e, w')
    end.

Definition panic {A} (e : error) : M A := fun w => (Panicked e, w).

(** [defer d] registered before [body]: [d] runs when [body] returns
    and when it panics. *)
Definition defer {A} (d : World -> World) (body : M A) : M A :=
  fun w => let '(o, w') := body w in (o, d w').

Definition modify (f : World -> World) : M unit := fun w => (Returned tt, f w).

Notation "x <- c1 ;; c2" := (bind c1 (fun x => c2))
  (at level 100, c1 at next level, right associativity).
Notation "c1 ;;; c2" := (bind c1 (fun _ => c2))
  (at level 100, right associativity).

(** The effects of [main.go] on the world, one function each. *)

(** [fmt.Fprint(os.Stderr, s)] *)
Definition say (s : string) (w : World) : World :=
  {| stderr := stderr w ++ [s]; stdout := stdout w;
     logLevel := logLevel w; logged := logged w;
     dirs := dirs w; files := files w;
     hydrated := hydrated w; closed := closed w |}.

(** [fmt.Print] to the standard output *)
Definition put (s : string) (w : World) : World :=
  {| stderr := stderr w; stdout := stdout w ++ [s];
     logLevel := logLevel w; logged := logged w;
     dirs := dirs w; files := files w;
     hydrated := hydrated w; closed := closed w |}.

(** [log.SetLevel] *)
Definition level (l : Level) (w : World) : World :=
  {| stderr := stderr w; stdout := stdout w;
     logLevel := l; logged := logged w;
     dirs := dirs w; files := files w;
     hydrated := hydrated w; closed := closed w |}.

(** [os.MkdirAll] that succeeds: the directory exists afterwards. *)
Definition mkdir (p : string) (w : World) : World :=
  {| stderr := stderr w; stdout := stdout w;
     logLevel := logLevel w; logged := logged w;
     dirs := {[p]} ∪ dirs w; files := files w;
     hydrated := hydrated w; closed := closed w |}.

(** The file at [p] now holds exactly [rows]. *)
Definition store (p : string) (rows : list (list string)) (w : World) : World :=
  {| stderr := stderr w; stdout := stdout w;
     logLevel := logLevel w; logged := logged w;
     dirs := dirs w; files := <[p := rows]> (files w);
     hydrated := hydrated w; closed := closed w |}.

(** A call [resource.GetStates(res, providers)]. *)
Definition hydration (res : list Resource) (w : World) : World :=
  {| stderr := stderr w; stdout := stdout w;
     logLevel := logLevel w; logged := logged w;
     dirs := dirs w; files := files w;
     hydrated := hydrated w ++ [res]; closed := closed w |}.

(** [p.Close()] for every provider of the pool. *)
Definition closeAll (ks : gset AWSClientKey) (w : World) : World :=
  {| stderr := stderr w; stdout := stdout w;
     logLevel := logLevel w; logged := logged w;
     dirs := dirs w; files := files w;
     hydrated := hydrated w; closed := ks ∪ closed w |}.

Definition eprint (s : string) : M unit := modify (say s).
Definition print (s : string) : M unit := modify (put s).
Definition SetLevel (l : Level) : M unit := modify (level l).
Definition addDir (p : string) : M unit := modify (mkdir p).
Definition setFile (p : string) (rows : list (list string)) : M unit :=
  modify (store p rows).
Definition noteHydration (res : list Resource) : M unit := modify (hydration res).

(** ** The other packages

    A Go function returning [(T, error)] returns a pair here: the caller
    in [main.go] decides what it does with the value when the error is
    not nil. *)
Record Externals := {
  (* package resource *)
  MatchSupportedTypes : string -> list string * option error;
  HasAttributes : list string -> string -> TerraformProvider ->
                  gmap string bool * option error;
  GetStates : list Resource -> gmap AWSClientKey TerraformProvider ->
              list Resource;
  GetAttribute : string -> Resource -> string * option error;
  (* package aws: SetAccountID has a pointer receiver and updates the
     client it is called on *)
  SetAccountID : Client -> Client * option error;
  ListResourcesByType : Client -> string -> list Resource * option error;
  (* package util; the client pool, a Go map, is given as the list of its
     entries in the order in which [range] visits them: the properties
     below hold for every such order *)
  NewAWSClientPool : option (list string) -> option (list string) ->
                     list (AWSClientKey * Client) * option error;
  NewProviderPool : list AWSClientKey -> string -> string -> Z ->
                    gmap AWSClientKey TerraformProvider * option error;
  (* the zero value of provider.TerraformProvider, read from the
     provider map at a key it does not hold *)
  zeroProvider : TerraformProvider;
  (* go-ssmhelpers, internal *)
  GetAWSProfiles : list string -> option (list string) * option error;
  BuildVersionString : string;
  (* os, path/filepath, encoding/csv: the errors of the file system *)
  LookupEnv : string -> option string;
  MkdirAll : string -> option error;
  Create : string -> option error;
  Join : string -> string -> string;
  Write : list string -> option error;
  (* csv.Writer.Flush: what of the buffered records reaches the file, and
     the error that w.Error() would report *)
  Flush : list (list string) -> list (list string) * option error;
  (* color, time, pflag *)
  RedString : string -> string;
  Format : Time -> string -> string;
  PrintDefaults : string;
  (* the line the handler cli.Default writes to os.Stderr for an entry *)
  HandleLog : Entry -> string;
  (* what the Go runtime writes to the error stream for a panic that
     nothing recovers: the value and the stack of the goroutine *)
  PanicReport : error -> string
}.

Variable E : Externals.

(** A call to the logger, with the handler [cli.Default] that
    [mainExitCode] installs before anything is logged.  The call is
    recorded with its severity, and the handler writes its line to the
    error stream unless the severity is below the level of the logger. *)
Definition logCall (e : Entry) (w : World) : World :=
  {| stderr := if handled (logLevel w) e
               then stderr w ++ [HandleLog E e] else stderr w;
     stdout := stdout w;
     logLevel := logLevel w; logged := logged w ++ [e];
     dirs := dirs w; files := files w;
     hydrated := hydrated w; closed := closed w |}.

Definition logEntry (e : Entry) : M unit := modify (logCall e).

(** ** [printHeaderCsv] and [printResourcesCsv] *)

(** [csv.Writer.Write]: the record goes to the writer's buffer. *)
Definition csvWrite (buf : list (list string)) (record : list string)
  : M (list (list string)) :=
  match Write E record with
  | Some err => panic err
  | None => ret (buf ++ [record])
  end.

Definition printHeaderCsv (buf : list (list string)) (attributes : list string)
  : M (list (list string)) :=
  let header := ["TYPE"; "ID"; "CREATED"]%string in
  let header := fold_left (fun h attribute => h ++ [attribute]) attributes header in
  csvWrite buf header.

(** The body of [for _, attr := range attributes]. *)
Definition attrValue (hasAttrs : gmap string bool) (r : Resource) (attr : string)
  : M string :=
  match hasAttrs !! attr with
  | Some _ =>
      match GetAttribute E attr r with
      | (_, Some err) =>
          logEntry {| entryLevel := DebugLevel;
                      entryFields := [("type", Type_ r); ("id", ID r)]%string;
                      entryError := Some err;
                      entryMessage := "failed to get attribute" |} ;;;
          ret "error"%string
      | (v, None) => ret v
      end
  | None => ret "N/A"%string
  end.

Fixpoint attrLoop (hasAttrs : gmap string bool) (r : Resource)
    (attributes : list string) (resourceItem : list string) : M (list string) :=
  match attributes with
  | [] => ret resourceItem
  | attr :: rest =>
      v <- attrValue hasAttrs r attr ;;
      attrLoop hasAttrs r rest (resourceItem ++ [v])
  end.

Definition resourceRow (hasAttrs : gmap string bool) (attributes : list string)
    (r : Resource) : M (list string) :=
  let resourceItem := [Type_ r; ID r] in
  let resourceItem :=
    match CreatedAt r with
    | Some t => resourceItem ++ [Format E t "2006-01-02 15:04:05"%string]
    | None => resourceItem ++ [""%string]
    end in
  attrLoop hasAttrs r attributes resourceItem.

Fixpoint resourceLoop (hasAttrs : gmap string bool) (attributes : list string)
    (resources : list Resource) (buf : list (list string))
  : M (list (list string)) :=
  match resources with
  | [] => ret buf
  | r :: rest =>
      resourceItem <- resourceRow hasAttrs attributes r ;;
      buf <- csvWrite buf resourceItem ;;
      resourceLoop hasAttrs attributes rest buf
  end.

Definition printResourcesCsv (resourceTypePattern : string)
    (resources : list Resource) (hasAttrs : gmap string bool)
    (attributes : list string) : M unit :=
  let filePath := Join E "aws-resources/" (resourceTypePattern +:+ ".csv") in
  match MkdirAll E "aws-resources/" with
  | Some err => panic err
  | None =>
      addDir "aws-resources/" ;;;
      match Create E filePath with
      | Some err => panic err
      | None =>
          (* os.Create truncates the file *)
          setFile filePath [] ;;;
          buf <- printHeaderCsv [] attributes ;;
          buf <- resourceLoop hasAttrs attributes resources buf ;;
          (* w.Flush(): the error it may meet is not read *)
          setFile filePath (Flush E buf).1 ;;;
          print ("printed csv file into " +:+ filePath +:+ " " +:+ nl)
      end
  end.


(** ** [printResource] *)

(** The body of [for key, client := range clients], on the two variables
    of the enclosing iteration, [resources] and [hasAttrs].  A [continue]
    returns them as they are at that point: [hasAttrs] is assigned by the
    call of [resource.HasAttributes] whether or not it fails. *)
Definition clientBody (rType : string) (attributes : list string)
    (providers : gmap AWSClientKey TerraformProvider)
    (kc : AWSClientKey * Client)
    (resources : list Resource) (hasAttrs : gmap string bool)
  : M (list Resource * gmap string bool) :=
  let '(key, client) := kc in
  let '(client, err) := SetAccountID E client in
  match err with
  | Some err =>
      eprint (RedString E ("Error " +:+ rType +:+ ": " +:+ err +:+ nl)) ;;;
      panic err
  | None =>
      let '(res, err) := ListResourcesByType E client rType in
      match err with
      | Some err =>
          eprint (RedString E ("Error " +:+ rType +:+ ": " +:+ err +:+ nl)) ;;;
          ret (resources, hasAttrs)
      | None =>
          let terraformProvider := default (zeroProvider E) (providers !! key) in
          let '(hasAttrs, err) := HasAttributes E attributes rType terraformProvider in
          match err with
          | Some err =>
              eprint (RedString E
                ("Error: failed to check if resource type has attribute: "
                 +:+ err +:+ nl)) ;;;
              ret (resources, hasAttrs)
          | None =>
              res <- (if (0 <? size hasAttrs)%nat
                      then noteHydration res ;;; ret (GetStates E res providers)
                      else ret res) ;;
              ret (resources ++ res, hasAttrs)
          end
      end
  end.

Fixpoint clientLoop (rType : string) (attributes : list string)
    (providers : gmap AWSClientKey TerraformProvider)
    (clients : list (AWSClientKey * Client))
    (resources : list Resource) (hasAttrs : gmap string bool)
  : M (list Resource * gmap string bool) :=
  match clients with
  | [] => ret (resources, hasAttrs)
  | kc :: rest =>
      st <- clientBody rType attributes providers kc resources hasAttrs ;;
      clientLoop rType attributes providers rest st.1 st.2
  end.

(** The body of [for _, rType := range matchedTypes]. *)
Definition typeBody (resourceTypePattern : string) (attributes : list string)
    (clients : list (AWSClientKey * Client))
    (providers : gmap AWSClientKey TerraformProvider)
    (rType : string) : M unit :=
  st <- clientLoop rType attributes providers clients [] ∅ ;;
  let '(resources, hasAttrs) := st in
  if (length resources =? 0)%nat
  then ret tt
  else printResourcesCsv resourceTypePattern resources hasAttrs attributes.

Fixpoint typeLoop (resourceTypePattern : string) (attributes : list string)
    (clients : list (AWSClientKey * Client))
    (providers : gmap AWSClientKey TerraformProvider)
    (matchedTypes : list string) : M unit :=
  match matchedTypes with
  | [] => ret tt
  | rType :: rest =>
      typeBody resourceTypePattern attributes clients providers rType ;;;
      typeLoop resourceTypePattern attributes clients providers rest
  end.

Definition printResource (resourceTypePattern : string) (attributes : list string)
    (clients : list (AWSClientKey * Client))
    (providers : gmap AWSClientKey TerraformProvider) : M unit :=
  let '(matchedTypes, err) := MatchSupportedTypes E resourceTypePattern in
  match err with
  | Some err =>
      eprint (RedString E
        ("Error: invalid glob pattern: " +:+ resourceTypePattern +:+ nl)) ;;;
      panic err
  | None =>
      (if (length matchedTypes =? 0)%nat
       then eprint (RedString E
              ("Error: no resource type found: " +:+ resourceTypePattern +:+ nl))
       else ret tt) ;;;
      typeLoop resourceTypePattern attributes clients providers matchedTypes
  end.

(** ** [printHelp] and [mainExitCode] *)

(** The constant [help], a raw string that starts and ends with a line
    break. *)
Definition help : string :=
  nl +:+ "awsls - list AWS resources." +:+ nl +:+ nl +:+
  "USAGE:" +:+ nl +:+
  "  $ awsls [flags] <resource_type glob pattern>" +:+ nl +:+ nl +:+
  "FLAGS:" +:+ nl.

Definition printHelp : M unit :=
  eprint (nl +:+ TrimSpace help +:+ nl) ;;;
  eprint (PrintDefaults E).

(** The four bytes the source has between [Error:] and [--profiles]. *)
Definition flagsMessage : string :=
  "Error:" +:+ String "195" (String "175" (String "194" (String "184" EmptyString)))
  +:+ " --profiles and --all-profiles flag cannot be used together" +:+ nl.

(** From [util.NewAWSClientPool] to [return 0]. *)
Definition runPools (fl : Flags) (profiles : option (list string)) : M Z :=
  let '(clients, err) := NewAWSClientPool E profiles (regions fl) in
  match err with
  | Some err =>
      eprint (RedString E (nl +:+ "Error: " +:+ err +:+ nl)) ;;;
      ret 1
  | None =>
      let clientKeys := map fst clients in
      SetLevel ErrorLevel ;;;
      (if logDebug fl then SetLevel DebugLevel else ret tt) ;;;
      let '(providers, err) :=
        NewProviderPool E clientKeys "2.68.0" "~/.awsls" (10 * 1000000000) in
      match err with
      | Some err =>
          eprint (RedString E (nl +:+ "Error: " +:+ err +:+ nl)) ;;;
          ret 1
      | None =>
          defer (closeAll (dom providers))
            (let attributes := ["private_ip"; "public_ip"; "tags"]%string in
             printResource "aws_instance" attributes clients providers ;;;
             ret 0)
      end
  end.

Definition mainExitCode (fl : Flags) : M Z :=
  print nl ;;;
  defer (put nl)
    ((* log.SetHandler(cli.Default) chooses how entries are shown *)
     (if logDebug fl then SetLevel DebugLevel else ret tt) ;;;
     if version fl then
       print (BuildVersionString E +:+ nl) ;;;
       ret 0
     else if bool_decide (profiles fl ≠ None) && allProfilesFlag fl then
       eprint (RedString E flagsMessage) ;;;
       printHelp ;;;
       ret 1
     else
       let profiles :=
         if bool_decide (profiles fl = None) && negb (allProfilesFlag fl)
         then match LookupEnv E "AWS_PROFILE" with
              | Some env => Some [env]
              | None => profiles fl
              end
         else profiles fl in
       if allProfilesFlag fl then
         let awsConfigPath :=
           match LookupEnv E "AWS_CONFIG_FILE" with
           | Some awsConfigFileEnv => [awsConfigFileEnv]
           | None => []
           end in
         let '(profilesFromConfig, err) := GetAWSProfiles E awsConfigPath in
         match err with
         | Some err =>
             eprint (RedString E
               ("Error: failed to load all profiles: " +:+ err +:+ nl)) ;;;
             ret 1
         | None =>
             match profilesFromConfig with
             | None =>
                 eprint (RedString E
                   ("Error: no profiles found in ~/.aws/config" +:+ nl)) ;;;
                 ret 1
             | Some _ => runPools fl profilesFromConfig
             end
         end
       else runPools fl profiles).

(** [main]: [os.Exit(mainExitCode())].  A panic that nothing recovers
    ends a Go process with exit status 2, after the deferred calls and
    after the report of the runtime on the error stream. *)
Definition main (fl : Flags) (w : World) : Z * World :=
  match mainExitCode fl w with
  | (Returned code, w') => (code, w')
  | (Panicked e, w') => (2, say (PanicReport E e) w')
  end.


(** ** What the pipeline computes

    Closed forms of the loops above, used to state the properties: the
    properties are proved of the code, through lemmas that relate it to
    these. *)

(** The path of the file [printResourcesCsv] writes. *)
Definition csvPath (resourceTypePattern : string) : string :=
  Join E "aws-resources/" (resourceTypePattern +:+ ".csv").

(** The Export Row Builder's value selection rule: ["N/A"] when the
    attribute is not a key of the support map, ["error"] when the
    extraction fails, the extracted value otherwise. *)
Definition specValue (hasAttrs : gmap string bool) (r : Resource) (attr : string)
  : string :=
  match hasAttrs !! attr with
  | None => "N/A"%string
  | Some _ =>
      match (GetAttribute E attr r).2 with
      | Some _ => "error"%string
      | None => (GetAttribute E attr r).1
      end
  end.

Definition created (r : Resource) : string :=
  match CreatedAt r with
  | Some t => Format E t "2006-01-02 15:04:05"%string
  | None => ""%string
  end.

(** Type, id, creation time, then one value per requested attribute. *)
Definition specRow (hasAttrs : gmap string bool) (attributes : list string)
    (r : Resource) : list string :=
  [Type_ r; ID r; created r] ++ map (specValue hasAttrs r) attributes.

Definition specHeader (attributes : list string) : list string :=
  ["TYPE"; "ID"; "CREATED"]%string ++ attributes.

(** The debug entry of a failed extraction. *)
Definition failureEntry (r : Resource) (err : error) : Entry :=
  {| entryLevel := DebugLevel;
     entryFields := [("type", Type_ r); ("id", ID r)]%string;
     entryError := Some err;
     entryMessage := "failed to get attribute" |}.

Definition specLog (hasAttrs : gmap string bool) (attributes : list string)
    (r : Resource) : list Entry :=
  flat_map (fun attr =>
    match hasAttrs !! attr, (GetAttribute E attr r).2 with
    | Some _, Some err => [failureEntry r err]
    | _, _ => []
    end) attributes.

Definition logAll (es : list Entry) (w : World) : World :=
  fold_left (fun w e => logCall e w) es w.

(** The file system lets [printResourcesCsv] through. *)
Definition fsOK (resourceTypePattern : string) : Prop :=
  MkdirAll E "aws-resources/" = None ∧
  Create E (csvPath resourceTypePattern) = None ∧
  ∀ record, Write E record = None.

(** A row whose attribute columns all hold the sentinel of an
    unsupported attribute. *)
Definition unsupportedRow (attributes : list string) (r : Resource) : list string :=
  [Type_ r; ID r; created r] ++ replicate (length attributes) "N/A"%string.

(** The world after an export that the file system lets through. *)
Definition exported (resourceTypePattern : string)
    (resources : list Resource) (hasAttrs : gmap string bool)
    (attributes : list string) (w : World) : World :=
  put ("printed csv file into " +:+ csvPath resourceTypePattern +:+ " " +:+ nl)
    (store (csvPath resourceTypePattern)
       (Flush E
          (specHeader attributes :: map (specRow hasAttrs attributes) resources)).1
       (logAll (flat_map (specLog hasAttrs attributes) resources)
          (store (csvPath resourceTypePattern) []
             (mkdir "aws-resources/" w)))).

(** Per client, for one resource type. *)
Section PerType.

Variables (rType : string) (attributes : list string)
          (providers : gmap AWSClientKey TerraformProvider).

Definition accountOK (kc : AWSClientKey * Client) : Prop :=
  (SetAccountID E kc.2).2 = None.

(** What the Resource Fetcher returns for the client. *)
Definition listing (kc : AWSClientKey * Client) : list Resource * option error :=
  ListResourcesByType E (SetAccountID E kc.2).1 rType.

(** What the Attribute Resolver returns for the client's provider. *)
Definition schema (kc : AWSClientKey * Client) : gmap string bool * option error :=
  HasAttributes E attributes rType (default (zeroProvider E) (providers !! kc.1)).

(** The requested attribute [attr] is supported by the client's provider. *)
Definition supported (kc : AWSClientKey * Client) (attr : string) : Prop :=
  is_Some ((schema kc).1 !! attr).

(** The client's resources are handed to [resource.GetStates]. *)
Definition hydrates (kc : AWSClientKey * Client) : bool :=
  match (listing kc).2, (schema kc).2 with
  | None, None => (0 <? size (schema kc).1)%nat
  | _, _ => false
  end.

(** What the client adds to [resources]. *)
Definition collects (kc : AWSClientKey * Client) : list Resource :=
  match (listing kc).2, (schema kc).2 with
  | None, None =>
      if (0 <? size (schema kc).1)%nat
      then GetStates E (listing kc).1 providers
      else (listing kc).1
  | _, _ => []
  end.

(** What the client adds to [resources] when nothing is hydrated: its
    resources as the Resource Fetcher returned them. *)
Definition fetched (kc : AWSClientKey * Client) : list Resource :=
  match (listing kc).2, (schema kc).2 with
  | None, None => (listing kc).1
  | _, _ => []
  end.

(** [hasAttrs] after the client. *)
Definition mapAfter (hasAttrs : gmap string bool) (kc : AWSClientKey * Client)
  : gmap string bool :=
  match (listing kc).2 with
  | None => (schema kc).1
  | Some _ => hasAttrs
  end.

(** The world after the client, when its account identity resolves. *)
Definition clientEffect (w : World) (kc : AWSClientKey * Client) : World :=
  match (listing kc).2, (schema kc).2 with
  | Some err, _ => say (RedString E ("Error " +:+ rType +:+ ": " +:+ err +:+ nl)) w
  | None, Some err =>
      say (RedString E ("Error: failed to check if resource type has attribute: "
                        +:+ err +:+ nl)) w
  | None, None =>
      if (0 <? size (schema kc).1)%nat then hydration (listing kc).1 w else w
  end.

End PerType.

(** ** The start of [mainExitCode], up to the client pool *)

Definition flagsValid (fl : Flags) : Prop :=
  ¬ (profiles fl ≠ None ∧ allProfilesFlag fl = true).

(** The profiles the pools are built for; [None] when the discovery of
    [--all-profiles] fails. *)
Definition discovered (fl : Flags) : option (option (list string)) :=
  if allProfilesFlag fl then
    match GetAWSProfiles E
            match LookupEnv E "AWS_CONFIG_FILE" with
            | Some f => [f]
            | None => []
            end with
    | (Some ps, None) => Some (Some ps)
    | _ => None
    end
  else if bool_decide (profiles fl = None) then
    match LookupEnv E "AWS_PROFILE" with
    | Some env => Some (Some [env])
    | None => Some None
    end
  else Some (profiles fl).

(** Flags are valid, the profiles are found and both pools are built. *)
Definition setupOK (fl : Flags) (clients : list (AWSClientKey * Client))
    (providers : gmap AWSClientKey TerraformProvider) : Prop :=
  version fl = false ∧ flagsValid fl ∧
  ∃ ps, discovered fl = Some ps ∧
        NewAWSClientPool E ps (regions fl) = (clients, None) ∧
        NewProviderPool E (map fst clients) "2.68.0" "~/.awsls" (10 * 1000000000)
          = (providers, None).

(** The world in which [printResource] starts, and the world the
    deferred calls leave. *)
Definition started (fl : Flags) (w : World) : World :=
  let debug := fun w => if logDebug fl then level DebugLevel w else w in
  debug (level ErrorLevel (debug (put nl w))).

Definition finished (providers : gmap AWSClientKey TerraformProvider)
    (w : World) : World :=
  put nl (closeAll (dom providers) w).

(** ** Closed forms for the rest of the run *)

(** What a client leaves on the error stream for one resource type, when
    its account identity resolves: one message if its listing fails, one if
    its schema query fails, nothing otherwise. *)
Definition complaint (rType : string) (attributes : list string)
    (providers : gmap AWSClientKey TerraformProvider)
    (kc : AWSClientKey * Client) : list string :=
  match (listing rType kc).2, (schema rType attributes providers kc).2 with
  | Some err, _ => [RedString E ("Error " +:+ rType +:+ ": " +:+ err +:+ nl)]
  | None, Some err =>
      [RedString E ("Error: failed to check if resource type has attribute: "
                    +:+ err +:+ nl)]
  | None, None => []
  end.

(** The world after one resource type, when the account identities
    resolve and the file system lets the export through. *)
Definition typeWorld (resourceTypePattern : string) (attributes : list string)
    (clients : list (AWSClientKey * Client))
    (providers : gmap AWSClientKey TerraformProvider)
    (w : World) (rType : string) : World :=
  let resources := flat_map (collects rType attributes providers) clients in
  let hasAttrs := fold_left (mapAfter rType attributes providers) clients ∅ in
  let w1 := fold_left (clientEffect rType attributes providers) clients w in
  if (length resources =? 0)%nat then w1
  else exported resourceTypePattern resources hasAttrs attributes w1.

(** [w'] differs from [w] on disk at most by the file at [p] and by the
    directory of the exports; the closed providers and the log level are
    the same. *)
Definition confined (p : string) (w w' : World) : Prop :=
  closed w' = closed w /\ logLevel w' = logLevel w /\
  (forall q : string, q <> p -> files w' !! q = files w !! q) /\
  dirs w ⊆ dirs w' /\ dirs w' ⊆ {["aws-resources/"%string]} ∪ dirs w.

(** The pairs of a resource and a requested attribute whose extraction
    fails although the attribute is a key of the support map. *)
Definition failures (hasAttrs : gmap string bool) (attributes : list string)
    (resources : list Resource) : list (Resource * string) :=
  flat_map (fun r =>
    flat_map (fun attr =>
      match hasAttrs !! attr, (GetAttribute E attr r).2 with
      | Some _, Some _ => [(r, attr)]
      | _, _ => []
      end) attributes) resources.

End Pipeline.

(** ** A concrete installation

    Clients are told apart by their profile name; a provider is the list
    of attribute names its schema has, or is broken.  Colours are off. *)
Module Demo.

Inductive Provider :=
| Schema (attrs : list string)
| Broken (err : error).

Definition key (profile : string) : AWSClientKey :=
  {| Profile := profile;
     Region := if String.eqb profile "prod" then "eu-west-1" else "us-east-1" |}.

Definition providerOf (profile : string) : Provider :=
  if String.eqb profile "prod" then Schema ["tags"]%string
  else if String.eqb profile "bare" then Schema []
  else if String.eqb profile "noschema" then Broken "schema unavailable"
  else Schema ["private_ip"; "public_ip"; "tags"]%string.

(** The matcher of a small registry: the glob aws_* matches every type of
    the registry, a lone bracket is malformed, any other pattern matches
    the type of that name. *)
Definition matcher (registry : list string) (pattern : string)
  : list string * option error :=
  if String.eqb pattern "[" then ([], Some "syntax error in pattern"%string)
  else if String.eqb pattern "aws_*" then (registry, None)
  else (List.filter (String.eqb pattern) registry, None).

Definition resolver (attributes : list string) (rType : string) (p : Provider)
  : gmap string bool * option error :=
  match p with
  | Schema attrs =>
      (list_to_map (map (fun a => (a, true))
         (List.filter (fun a => existsb (String.eqb a) attrs) attributes)), None)
  | Broken err => (∅, Some err)
  end.

Definition lister (client rType : string)
  : list (@Resource string) * option error :=
  if String.eqb client "offline" then ([], Some "request timed out"%string)
  else if String.eqb client "empty" then ([], None)
  else ([{| Type_ := rType; ID := "i-" +:+ client;
            CreatedAt := None; Attributes := ∅ |}], None).

(** Hydration finds a private address and the tags, no public address. *)
Definition hydrate (r : @Resource string) : @Resource string :=
  {| Type_ := Type_ r; ID := ID r; CreatedAt := Some "2020-07-01 12:00:00"%string;
     Attributes := <["private_ip" := "10.0.0.1"%string]>
                     (<["tags" := "{}"%string]> (Attributes r)) |}.

Definition extract (attr : string) (r : @Resource string) : string * option error :=
  match Attributes r !! attr with
  | Some v => (v, None)
  | None => (""%string, Some "attribute not set"%string)
  end.

Definition env (registry : list string)
  : @Externals string Provider string :=
  {| MatchSupportedTypes := matcher registry;
     HasAttributes := resolver;
     GetStates := fun res _ => map hydrate res;
     GetAttribute := extract;
     SetAccountID := fun c =>
       (c, if String.eqb c "expired" then Some "ExpiredToken"%string else None);
     ListResourcesByType := lister;
     NewAWSClientPool := fun profiles _ =>
       match profiles with
       | Some ps =>
           (map (fun p => (key p, p)) ps,
            if existsb (String.eqb "unknown") ps
            then Some "profile not found"%string else None)
       | None => ([(key "default", "default"%string)], None)
       end;
     NewProviderPool := fun keys _ _ _ =>
       (list_to_map (map (fun k => (k, providerOf (Profile k))) keys),
        if existsb (fun k => String.eqb (Profile k) "noplugin") keys
        then Some "provider failed to start"%string else None);
     zeroProvider := Broken "no provider";
     GetAWSProfiles := fun _ => (Some ["dev"; "prod"]%string, None);
     BuildVersionString := "awsls dev";
     LookupEnv := fun _ => None;
     MkdirAll := fun _ => None;
     Create := fun _ => None;
     (* filepath.Join of a directory written with its final separator and
        a file name without separators *)
     Join := fun dir name => dir +:+ name;
     Write := fun _ => None;
     Flush := fun buf => (buf, None);
     RedString := fun s => s;
     Format := fun t _ => t;
     PrintDefaults := "      --debug   Enable debug logging";
     HandleLog := fun e => "debug: " +:+ entryMessage e +:+ nl;
     PanicReport := fun e => "panic: " +:+ e +:+ nl |}.

(** The registry knows the instance type. *)
Definition aws : @Externals string Provider string := env ["aws_instance"%string].

(** A registry that knows nothing. *)
Definition bare : @Externals string Provider string := env [].

Definition flagsFor (ps : list string) : Flags :=
  {| logDebug := false; allProfilesFlag := false;
     profiles := Some ps; regions := None; version := false |}.

Definition pool (ps : list string) : list (AWSClientKey * string) :=
  map (fun p => (key p, p)) ps.

Definition providersFor (ps : list string) : gmap AWSClientKey Provider :=
  list_to_map (map (fun k => (k, providerOf (Profile k))) (map key ps)).

Definition requested : list string := ["private_ip"; "public_ip"; "tags"]%string.

(** Nothing printed, nothing on disk. *)
Definition fresh : @World string :=
  {| stderr := []; stdout := []; logLevel := InfoLevel; logged := [];
     dirs := ∅; files := ∅; hydrated := []; closed := ∅ |}.

(** An earlier run left a file. *)
Definition used : @World string :=
  {| stderr := []; stdout := []; logLevel := InfoLevel; logged := [];
     dirs := {["aws-resources/"%string]};
     files := {["aws-resources/aws_instance.csv"%string := [["stale"%string]]]};
     hydrated := []; closed := ∅ |}.

(** The instance the lister returns for a client, and the same after
    hydration. *)
Definition instance (client : string) : @Resource string :=
  {| Type_ := "aws_instance"; ID := "i-" +:+ client;
     CreatedAt := None; Attributes := ∅ |}.

(** The support map of a provider whose schema has the tags only. *)
Definition onlyTags : gmap string bool := {["tags"%string := true]}.

(** The support map of a provider whose schema has the three attributes. *)
Definition allThree : gmap string bool :=
  list_to_map [("private_ip", true); ("public_ip", true); ("tags", true)]%string.

(** The installation [aws] on a disk that refuses: [MkdirAll], [Create]
    and [Write] answer with the given errors. *)
Definition onDisk (mk cr wr : option error) : @Externals string Provider string :=
  {| MatchSupportedTypes := MatchSupportedTypes aws;
     HasAttributes := HasAttributes aws;
     GetStates := GetStates aws;
     GetAttribute := GetAttribute aws;
     SetAccountID := SetAccountID aws;
     ListResourcesByType := ListResourcesByType aws;
     NewAWSClientPool := NewAWSClientPool aws;
     NewProviderPool := NewProviderPool aws;
     zeroProvider := zeroProvider aws;
     GetAWSProfiles := GetAWSProfiles aws;
     BuildVersionString := BuildVersionString aws;
     LookupEnv := LookupEnv aws;
     MkdirAll := fun _ => mk;
     Create := fun _ => cr;
     Join := Join aws;
     Write := fun _ => wr;
     Flush := Flush aws;
     RedString := RedString aws;
     Format := Format aws;
     PrintDefaults := PrintDefaults aws;
     HandleLog := HandleLog aws;
     PanicReport := PanicReport aws |}.

(** The installation [aws] on a disk that fills up at the last moment:
    the three calls succeed and the final flush writes nothing. *)
Definition full : @Externals string Provider string :=
  {| MatchSupportedTypes := MatchSupportedTypes aws;
     HasAttributes := HasAttributes aws;
     GetStates := GetStates aws;
     GetAttribute := GetAttribute aws;
     SetAccountID := SetAccountID aws;
     ListResourcesByType := ListResourcesByType aws;
     NewAWSClientPool := NewAWSClientPool aws;
     NewProviderPool := NewProviderPool aws;
     zeroProvider := zeroProvider aws;
     GetAWSProfiles := GetAWSProfiles aws;
     BuildVersionString := BuildVersionString aws;
     LookupEnv := LookupEnv aws;
     MkdirAll := MkdirAll aws;
     Create := Create aws;
     Join := Join aws;
     Write := Write aws;
     Flush := fun _ => ([], Some "no space left on device"%string);
     RedString := RedString aws;
     Format := Format aws;
     PrintDefaults := PrintDefaults aws;
     HandleLog := HandleLog aws;
     PanicReport := PanicReport aws |}.

(** [fresh] and [used] with the logger at the level of --debug. *)
Definition verbose (w : @World string) : @World string := level DebugLevel w.

(** A registry with two types, both matched by the glob aws_*. *)
Definition two : @Externals string Provider string :=
  env ["aws_instance"; "aws_vpc"]%string.

(** --profiles dev --all-profiles, without and with --version. *)
Definition both : Flags :=
  {| logDebug := false; allProfilesFlag := true;
     profiles := Some ["dev"%string]; regions := None; version := false |}.

Definition bothAndVersion : Flags :=
  {| logDebug := true; allProfilesFlag := true;
     profiles := Some ["dev"%string]; regions := None; version := true |}.

End Demo.

(** ** Properties *)

Lemma help_trimmed :
  TrimSpace help =
  "awsls - list AWS resources." +:+ nl +:+ nl +:+
  "USAGE:" +:+ nl +:+
  "  $ awsls [flags] <resource_type glob pattern>" +:+ nl +:+ nl +:+
  "FLAGS:".
Proof. reflexivity. Qed.

Section Properties.

Context {Client TerraformProvider Time : Type}.
Variable E : @Externals Client TerraformProvider Time.

Implicit Types (w : @World Time) (r : @Resource Time)
  (hasAttrs : gmap string bool) (attributes : list string)
  (kc : AWSClientKey * Client) (clients : list (AWSClientKey * Client))
  (providers : gmap AWSClientKey TerraformProvider).

(** *** The log *)

Lemma logAll_app (es1 es2 : list Entry) w :
  logAll E (es1 ++ es2) w = logAll E es2 (logAll E es1 w).
Proof. unfold logAll. apply fold_left_app. Qed.

Lemma logAll_logged (es : list Entry) w :
  logged (logAll E es w) = logged w ++ es.
Proof.
  revert w. induction es as [|e es IH]; intros w; cbn.
  - by rewrite app_nil_r.
  - change (fold_left _ es (logCall E e w)) with (logAll E es (logCall E e w)).
    rewrite IH. cbn. by rewrite <- app_assoc.
Qed.

Lemma logAll_frame (es : list Entry) w :
  stdout (logAll E es w) = stdout w /\
  logLevel (logAll E es w) = logLevel w /\ dirs (logAll E es w) = dirs w /\
  files (logAll E es w) = files w /\ hydrated (logAll E es w) = hydrated w /\
  closed (logAll E es w) = closed w.
Proof.
  revert w. induction es as [|e es IH]; intros w; cbn; [done|].
  change (fold_left _ es (logCall E e w)) with (logAll E es (logCall E e w)).
  destruct (IH (logCall E e w)) as (-> & -> & -> & -> & -> & ->). done.
Qed.

(** The handler writes the entries whose severity is not below the level,
    in the order of the calls. *)
Lemma logAll_stderr (es : list Entry) w :
  stderr (logAll E es w) =
  stderr w ++ map (HandleLog E) (List.filter (handled (logLevel w)) es).
Proof.
  revert w. induction es as [|e es IH]; intros w; cbn [fold_left logAll List.filter map].
  { cbn. by rewrite app_nil_r. }
  change (fold_left _ es (logCall E e w)) with (logAll E es (logCall E e w)).
  rewrite IH. cbn [logCall logLevel stderr].
  destruct (handled (logLevel w) e); cbn [map]; [by rewrite <- app_assoc|done].
Qed.

(** *** The Export Row Builder *)

Lemma attrValue_spec hasAttrs r (attr : string) w :
  attrValue E hasAttrs r attr w =
  (Returned (specValue E hasAttrs r attr), logAll E (specLog E hasAttrs [attr] r) w).
Proof.
  unfold attrValue, specValue, specLog. cbn.
  destruct (hasAttrs !! attr) as [b|]; [|done].
  destruct (GetAttribute E attr r) as [v [err|]]; done.
Qed.

Lemma specLog_cons hasAttrs (attr : string) attributes r :
  specLog E hasAttrs (attr :: attributes) r =
  specLog E hasAttrs [attr] r ++ specLog E hasAttrs attributes r.
Proof. unfold specLog. cbn. by rewrite app_nil_r. Qed.

Lemma attrLoop_spec hasAttrs r attributes (resourceItem : list string) w :
  attrLoop E hasAttrs r attributes resourceItem w =
  (Returned (resourceItem ++ map (specValue E hasAttrs r) attributes),
   logAll E (specLog E hasAttrs attributes r) w).
Proof.
  revert resourceItem w.
  induction attributes as [|attr rest IH]; intros resourceItem w.
  - cbn. by rewrite app_nil_r.
  - cbn [attrLoop]. unfold bind. rewrite attrValue_spec, IH.
    rewrite (specLog_cons _ attr rest), logAll_app. cbn [map].
    by rewrite <- app_assoc.
Qed.

Lemma resourceRow_spec hasAttrs attributes r w :
  resourceRow E hasAttrs attributes r w =
  (Returned (specRow E hasAttrs attributes r),
   logAll E (specLog E hasAttrs attributes r) w).
Proof.
  unfold resourceRow, specRow, created. rewrite attrLoop_spec.
  by destruct (CreatedAt r).
Qed.

Lemma header_fold attributes (header : list string) :
  fold_left (fun h attribute => h ++ [attribute]) attributes header
  = header ++ attributes.
Proof.
  revert header. induction attributes as [|a rest IH]; intros header; cbn.
  - by rewrite app_nil_r.
  - rewrite IH. by rewrite <- app_assoc.
Qed.

Lemma resourceLoop_ok hasAttrs attributes (resources : list (@Resource Time))
    (buf : list (list string)) w :
  (forall record, Write E record = None) ->
  resourceLoop E hasAttrs attributes resources buf w =
  (Returned (buf ++ map (specRow E hasAttrs attributes) resources),
   logAll E (flat_map (specLog E hasAttrs attributes) resources) w).
Proof.
  intros HW. revert buf w.
  induction resources as [|r rest IH]; intros buf w.
  - cbn. by rewrite app_nil_r.
  - cbn [resourceLoop]. unfold bind at 1. rewrite resourceRow_spec.
    unfold bind at 1. unfold csvWrite. rewrite HW. unfold ret at 1.
    rewrite IH. cbn [flat_map map]. rewrite logAll_app.
    by rewrite <- app_assoc.
Qed.

Lemma printResourcesCsv_ok (resourceTypePattern : string)
    (resources : list (@Resource Time)) hasAttrs attributes w :
  fsOK E resourceTypePattern ->
  printResourcesCsv E resourceTypePattern resources hasAttrs attributes w =
  (Returned tt, exported E resourceTypePattern resources hasAttrs attributes w).
Proof.
  intros (Hmk & Hcr & HW). unfold printResourcesCsv, exported.
  fold (csvPath E resourceTypePattern). rewrite Hmk, Hcr.
  unfold bind, addDir, setFile, print, modify, printHeaderCsv, csvWrite.
  rewrite HW. unfold ret at 1. rewrite resourceLoop_ok by done.
  rewrite header_fold. done.
Qed.

Lemma exported_files (resourceTypePattern : string)
    (resources : list (@Resource Time)) hasAttrs attributes w :
  files (exported E resourceTypePattern resources hasAttrs attributes w) =
  <[csvPath E resourceTypePattern :=
      (Flush E (specHeader attributes ::
                map (specRow E hasAttrs attributes) resources)).1]>
    (files w).
Proof.
  unfold exported. cbn.
  destruct (logAll_frame
    (flat_map (specLog E hasAttrs attributes) resources)
    (store (csvPath E resourceTypePattern) [] (mkdir "aws-resources/" w)))
    as (_ & _ & _ & -> & _). cbn.
  by rewrite insert_insert_eq.
Qed.

(** *** The client loop *)

Lemma clientBody_ok (rType : string) attributes providers kc
    (resources : list (@Resource Time)) hasAttrs w :
  accountOK E kc ->
  clientBody E rType attributes providers kc resources hasAttrs w =
  (Returned (resources ++ collects E rType attributes providers kc,
             mapAfter E rType attributes providers hasAttrs kc),
   clientEffect E rType attributes providers w kc).
Proof.
  unfold accountOK, clientBody, collects, mapAfter, clientEffect, listing, schema.
  destruct kc as [key client]. cbn [fst snd].
  destruct (SetAccountID E client) as [client' aerr]. cbn [fst snd].
  intros ->.
  destruct (ListResourcesByType E client' rType) as [res [lerr|]]; cbn [fst snd].
  { unfold bind, eprint, modify, ret. by rewrite app_nil_r. }
  destruct (HasAttributes E attributes rType _) as [m [serr|]]; cbn [fst snd].
  { unfold bind, eprint, modify, ret. by rewrite app_nil_r. }
  by destruct (0 <? size m)%nat.
Qed.

Lemma clientBody_panic (rType : string) attributes providers kc
    (resources : list (@Resource Time)) hasAttrs w (err : error) :
  (SetAccountID E kc.2).2 = Some err ->
  clientBody E rType attributes providers kc resources hasAttrs w =
  (Panicked err, say (RedString E ("Error " +:+ rType +:+ ": " +:+ err +:+ nl)) w).
Proof.
  unfold clientBody. destruct kc as [key client]. cbn [fst snd].
  destruct (SetAccountID E client) as [client' aerr]. cbn [fst snd].
  by intros ->.
Qed.

Lemma clientLoop_ok (rType : string) attributes providers clients
    (resources : list (@Resource Time)) hasAttrs w :
  Forall (accountOK E) clients ->
  clientLoop E rType attributes providers clients resources hasAttrs w =
  (Returned (resources ++ flat_map (collects E rType attributes providers) clients,
             fold_left (mapAfter E rType attributes providers) clients hasAttrs),
   fold_left (clientEffect E rType attributes providers) clients w).
Proof.
  intros Hok. revert resources hasAttrs w.
  induction Hok as [|kc rest Hkc _ IH]; intros resources hasAttrs w.
  - cbn. by rewrite app_nil_r.
  - cbn [clientLoop]. unfold bind. rewrite clientBody_ok by done.
    cbn [fst snd]. rewrite IH. cbn [flat_map fold_left].
    by rewrite <- app_assoc.
Qed.

(** The first client whose account identity does not resolve stops the
    loop with a panic, after the message. *)
Lemma clientLoop_panic (rType : string) attributes providers clients
    (resources : list (@Resource Time)) hasAttrs w :
  Exists (fun kc => ~ accountOK E kc) clients ->
  exists (err : error) (before : list (AWSClientKey * Client)) kc
         (after : list (AWSClientKey * Client)),
    clients = before ++ kc :: after /\
    Forall (accountOK E) before /\
    (SetAccountID E kc.2).2 = Some err /\
    clientLoop E rType attributes providers clients resources hasAttrs w =
    (Panicked err,
     say (RedString E ("Error " +:+ rType +:+ ": " +:+ err +:+ nl))
       (fold_left (clientEffect E rType attributes providers) before w)).
Proof.
  intros Hex. revert resources hasAttrs w.
  induction clients as [|kc rest IH]; intros resources hasAttrs w.
  { by apply Exists_nil in Hex. }
  destruct ((SetAccountID E kc.2).2) as [err|] eqn:Hacc.
  - exists err, [], kc, rest. repeat split; [constructor|done|].
    cbn [clientLoop]. unfold bind. by rewrite (clientBody_panic _ _ _ _ _ _ _ err).
  - apply Exists_cons in Hex as [Hbad|Hex]; [by destruct Hbad|].
    destruct (IH Hex (resources ++ collects E rType attributes providers kc)
                (mapAfter E rType attributes providers hasAttrs kc)
                (clientEffect E rType attributes providers w kc))
      as (err & before & kc' & after & -> & Hbefore & Hkc' & Hloop).
    exists err, (kc :: before), kc', after.
    repeat split; [by constructor|done|].
    cbn [clientLoop app]. unfold bind. rewrite clientBody_ok by done.
    cbn [fst snd fold_left]. exact Hloop.
Qed.

(** What the client loop does to the world: messages on the error
    stream and calls of [resource.GetStates], nothing else. *)
Lemma clientEffect_frame (rType : string) attributes providers clients w :
  let w' := fold_left (clientEffect E rType attributes providers) clients w in
  stdout w' = stdout w /\ logLevel w' = logLevel w /\ logged w' = logged w /\
  dirs w' = dirs w /\ files w' = files w /\ closed w' = closed w /\
  hydrated w' = hydrated w ++
    flat_map (fun kc => if hydrates E rType attributes providers kc
                        then [(listing E rType kc).1] else []) clients.
Proof.
  revert w. induction clients as [|kc rest IH]; intros w; cbn [fold_left flat_map].
  { cbn. by rewrite app_nil_r. }
  destruct (IH (clientEffect E rType attributes providers w kc))
    as (-> & -> & -> & -> & -> & -> & ->).
  unfold clientEffect, hydrates.
  destruct ((listing E rType kc).2); [done|].
  destruct ((schema E rType attributes providers kc).2); [done|].
  destruct (0 <? size _)%nat; cbn; [by rewrite <- app_assoc|done].
Qed.

(** *** One resource type *)

(** The export never calls [resource.GetStates] and leaves the level of
    the logger alone, whether it returns or panics. *)
Lemma resourceLoop_quiet hasAttrs attributes (resources : list (@Resource Time))
    (buf : list (list string)) w (o : Outcome (list (list string))) w' :
  resourceLoop E hasAttrs attributes resources buf w = (o, w') ->
  hydrated w' = hydrated w /\ logLevel w' = logLevel w.
Proof.
  revert buf w. induction resources as [|r rest IH]; intros buf w.
  { cbn. by intros [= _ <-]. }
  cbn [resourceLoop]. unfold bind at 1. rewrite resourceRow_spec.
  unfold bind at 1. unfold csvWrite.
  destruct (logAll_frame (specLog E hasAttrs attributes r) w)
    as (_ & Hlev & _ & _ & Hhyd & _).
  destruct (Write E _); cbn [panic ret].
  - intros [= _ <-]. done.
  - intros Hrest. apply IH in Hrest as [-> ->]. done.
Qed.

Lemma printResourcesCsv_quiet (resourceTypePattern : string)
    (resources : list (@Resource Time)) hasAttrs attributes w
    (o : Outcome unit) w' :
  printResourcesCsv E resourceTypePattern resources hasAttrs attributes w = (o, w') ->
  hydrated w' = hydrated w /\ logLevel w' = logLevel w.
Proof.
  unfold printResourcesCsv.
  destruct (MkdirAll E _); [by intros [= _ <-]|].
  unfold bind at 1. cbn [addDir modify].
  destruct (Create E _); [by intros [= _ <-]|].
  unfold bind at 1. cbn [setFile modify].
  unfold bind at 1. unfold printHeaderCsv, csvWrite.
  destruct (Write E _); [by intros [= _ <-]|]. cbn [ret].
  unfold bind at 1.
  destruct (resourceLoop E hasAttrs attributes resources _ _)
    as [[buf|e] w2] eqn:Hloop;
    apply resourceLoop_quiet in Hloop as [Hh He]; cbn in Hh, He.
  - unfold bind, print, modify. intros [= _ <-]. done.
  - intros [= _ <-]. done.
Qed.

Lemma typeBody_clients (resourceTypePattern rType : string) attributes clients
    providers w :
  Forall (accountOK E) clients ->
  typeBody E resourceTypePattern attributes clients providers rType w =
  let resources := flat_map (collects E rType attributes providers) clients in
  let hasAttrs := fold_left (mapAfter E rType attributes providers) clients ∅ in
  let w1 := fold_left (clientEffect E rType attributes providers) clients w in
  if (length resources =? 0)%nat then (Returned tt, w1)
  else printResourcesCsv E resourceTypePattern resources hasAttrs attributes w1.
Proof.
  intros Hok. unfold typeBody, bind. rewrite clientLoop_ok by done.
  cbn [app]. by destruct (length _ =? 0)%nat.
Qed.

Lemma length_eqb_0 {A} (l : list A) : l <> [] -> (length l =? 0)%nat = false.
Proof. by destruct l. Qed.

Lemma size_pos_supported (m : gmap string bool) :
  (0 <? size m)%nat = true <-> exists attr : string, is_Some (m !! attr).
Proof.
  rewrite Nat.ltb_lt. split.
  - intros Hs. destruct (map_choose m) as (attr & b & Hm).
    { apply map_size_non_empty_iff. lia. }
    by exists attr, b.
  - intros (attr & b & Hm). destruct (decide (size m = 0%nat)) as [H0|]; [|lia].
    apply map_size_empty_iff in H0. subst m. by rewrite lookup_empty in Hm.
Qed.

Lemma hydrates_true (rType : string) attributes providers kc :
  hydrates E rType attributes providers kc = true <->
  (listing E rType kc).2 = None /\
  (schema E rType attributes providers kc).2 = None /\
  exists attr : string, supported E rType attributes providers kc attr.
Proof.
  unfold hydrates, supported.
  destruct ((listing E rType kc).2);
    [split; [done|by intros (? & _)]|].
  destruct ((schema E rType attributes providers kc).2);
    [split; [done|by intros (_ & ? & _)]|].
  rewrite size_pos_supported.
  split; [intros Hs; by repeat split|by intros (_ & _ & Hs)].
Qed.

(** *** [mainExitCode] *)

Lemma mainExitCode_run (fl : Flags) clients providers w :
  setupOK E fl clients providers ->
  mainExitCode E fl w =
  match printResource E "aws_instance" ["private_ip"; "public_ip"; "tags"]%string
          clients providers (started fl w) with
  | (Returned _, w1) => (Returned 0, finished providers w1)
  | (Panicked e, w1) => (Panicked e, finished providers w1)
  end.
Proof.
  intros (Hv & Hflags & ps & Hps & Hclients & Hproviders).
  assert (Hpools : forall w0,
    runPools E fl ps w0 =
    match printResource E "aws_instance" ["private_ip"; "public_ip"; "tags"]%string
            clients providers
            ((if logDebug fl then level DebugLevel else fun w => w)
               (level ErrorLevel w0)) with
    | (Returned _, w1) => (Returned 0, closeAll (dom providers) w1)
    | (Panicked e, w1) => (Panicked e, closeAll (dom providers) w1)
    end).
  { intros w0. unfold runPools. rewrite Hclients, Hproviders.
    unfold bind at 1. cbn [SetLevel modify].
    unfold bind at 1. unfold defer, bind.
    destruct (logDebug fl); cbn [SetLevel modify ret];
      by destruct (printResource _ _ _ _ _ _) as [[[]|e] w1]. }
  unfold mainExitCode, started, finished, flagsValid, discovered in *.
  unfold bind at 1. cbn [print modify]. unfold defer.
  unfold bind at 1. rewrite Hv.
  destruct fl as [dbg allp profs regs ver]; cbn [logDebug allProfilesFlag
    profiles regions version] in *.
  destruct allp.
  - destruct profs as [profs|]; [exfalso; by apply Hflags|].
    rewrite bool_decide_eq_false_2 by (intros H; by apply H).
    cbn [andb negb]. rewrite ?andb_false_r.
    destruct (GetAWSProfiles E _) as [[found|] [err|]]; try done.
    injection Hps as <-.
    destruct dbg; cbn [SetLevel modify ret]; rewrite Hpools;
      by destruct (printResource _ _ _ _ _ _) as [[[]|e] w1].
  - rewrite ?andb_false_r. cbn [negb]. rewrite ?andb_true_r.
    destruct profs as [profs|].
    + rewrite bool_decide_eq_false_2 in * by done.
      injection Hps as <-.
      destruct dbg; cbn [SetLevel modify ret]; rewrite Hpools;
        by destruct (printResource _ _ _ _ _ _) as [[[]|e] w1].
    + rewrite bool_decide_eq_true_2 in * by done.
      destruct (LookupEnv E "AWS_PROFILE") as [env|]; injection Hps as <-;
        destruct dbg; cbn [SetLevel modify ret]; rewrite Hpools;
        by destruct (printResource _ _ _ _ _ _) as [[[]|e] w1].
Qed.

(** *** Rows *)

Lemma lookup_map {A B} (f : A -> B) (l : list A) (i : nat) :
  map f l !! i = f <$> l !! i.
Proof. exact (list_lookup_fmap f l i). Qed.

Lemma specRow_lookup hasAttrs attributes r (i : nat) (attr : string) :
  attributes !! i = Some attr ->
  specRow E hasAttrs attributes r !! (3 + i)%nat = Some (specValue E hasAttrs r attr).
Proof.
  intros Hi. unfold specRow. cbn.
  etransitivity; [apply lookup_map|by rewrite Hi].
Qed.

Lemma specLog_failure hasAttrs attributes r (i : nat) (attr : string) (err : error) :
  attributes !! i = Some attr ->
  is_Some (hasAttrs !! attr) ->
  (GetAttribute E attr r).2 = Some err ->
  failureEntry r err ∈ specLog E hasAttrs attributes r.
Proof.
  intros Hi [b Hb] Herr. apply list_elem_of_In, in_flat_map.
  exists attr. split.
  - apply list_elem_of_In. by eapply list_elem_of_lookup_2.
  - rewrite Hb, Herr. by left.
Qed.

Lemma exported_logged (resourceTypePattern : string)
    (resources : list (@Resource Time)) hasAttrs attributes w :
  logged (exported E resourceTypePattern resources hasAttrs attributes w) =
  logged w ++ flat_map (specLog E hasAttrs attributes) resources.
Proof. unfold exported. cbn. by rewrite logAll_logged. Qed.

(** C8: in every exported row, the column of a requested attribute that is
    not a key of the support map used for the export holds exactly the
    string N/A.  The row builder returns such a row for every resource, and
    when the file system lets the export through, every data row handed
    to the csv writer has N/A in that column; the file holds what the
    final flush, whose error is not read, lets through of them. *)
Theorem C8_unsupported_attribute_reads_NA (resourceTypePattern : string)
    (resources : list (@Resource Time)) hasAttrs attributes w
    (i : nat) (attr : string) :
  attributes !! i = Some attr ->
  hasAttrs !! attr = None ->
  (forall r w0, exists (row : list string) w1,
      resourceRow E hasAttrs attributes r w0 = (Returned row, w1) /\
      row !! (3 + i)%nat = Some "N/A"%string) /\
  (fsOK E resourceTypePattern ->
   exists w' (rows : list (list string)),
     printResourcesCsv E resourceTypePattern resources hasAttrs attributes w
       = (Returned tt, w') /\
     files w' !! csvPath E resourceTypePattern
       = Some (Flush E (specHeader attributes :: rows)).1 /\
     length rows = length resources /\
     Forall (fun row : list string => row !! (3 + i)%nat = Some "N/A"%string) rows).
Proof.
  intros Hi Hno.
  assert (Hrow : forall r,
    specRow E hasAttrs attributes r !! (3 + i)%nat = Some "N/A"%string).
  { intros r. rewrite (specRow_lookup _ _ _ _ attr) by done.
    unfold specValue. by rewrite Hno. }
  split.
  - intros r w0. eexists _, _. split; [apply resourceRow_spec|apply Hrow].
  - intros Hfs. eexists _, _. split; [by apply printResourcesCsv_ok|].
    rewrite exported_files, lookup_insert_eq. split; [done|].
    split; [by rewrite length_map|].
    apply Forall_forall. intros row Hin.
    apply list_elem_of_In, in_map_iff in Hin as (r & <- & _). apply Hrow.
Qed.

(** C9: when the extraction of a supported attribute fails for a resource,
    the value in that column of its row is exactly the string error, a log
    entry of debug severity carrying the type and the id of the resource is
    emitted, and nothing aborts: the row builder returns, and the export
    returns whenever the file system lets it through, the row handed to the
    csv writer having error in that column (the file holds what the final
    flush, whose error is not read, lets through of the rows). *)
Theorem C9_failed_extraction_reads_error (resourceTypePattern : string)
    (resources : list (@Resource Time)) hasAttrs attributes w
    (i : nat) (attr : string) r (err : error) :
  attributes !! i = Some attr ->
  is_Some (hasAttrs !! attr) ->
  (GetAttribute E attr r).2 = Some err ->
  let entry := {| entryLevel := DebugLevel;
                  entryFields := [("type", Type_ r); ("id", ID r)]%string;
                  entryError := Some err;
                  entryMessage := "failed to get attribute" |} in
  (forall w0, exists (row : list string) w1,
      resourceRow E hasAttrs attributes r w0 = (Returned row, w1) /\
      row !! (3 + i)%nat = Some "error"%string /\
      entry ∈ logged w1) /\
  (fsOK E resourceTypePattern ->
   exists w' (rows : list (list string)),
     printResourcesCsv E resourceTypePattern resources hasAttrs attributes w
       = (Returned tt, w') /\
     files w' !! csvPath E resourceTypePattern
       = Some (Flush E (specHeader attributes :: rows)).1 /\
     forall j : nat, resources !! j = Some r ->
       entry ∈ logged w' /\
       exists row : list string,
         rows !! j = Some row /\ row !! (3 + i)%nat = Some "error"%string).
Proof.
  intros Hi Hsome Herr entry.
  assert (Hrow :
    specRow E hasAttrs attributes r !! (3 + i)%nat = Some "error"%string).
  { rewrite (specRow_lookup _ _ _ _ attr) by done.
    unfold specValue. destruct Hsome as [b ->]. by rewrite Herr. }
  assert (Hlog : entry ∈ specLog E hasAttrs attributes r).
  { by apply (specLog_failure _ _ _ i attr). }
  split.
  - intros w0. eexists _, _. split; [apply resourceRow_spec|].
    split; [done|]. rewrite logAll_logged. apply elem_of_app. by right.
  - intros Hfs. eexists _, _. split; [by apply printResourcesCsv_ok|].
    rewrite exported_files, lookup_insert_eq. split; [done|].
    intros j Hj. split.
    + rewrite exported_logged. apply elem_of_app. right.
      apply list_elem_of_In, in_flat_map. exists r.
      split; apply list_elem_of_In; [by eapply list_elem_of_lookup_2|done].
    + exists (specRow E hasAttrs attributes r). split; [|done].
      by rewrite lookup_map, Hj.
Qed.

(** *** Hydration and export of one type *)

Lemma typeBody_hydrated (resourceTypePattern rType : string) attributes clients
    providers w :
  Forall (accountOK E) clients ->
  hydrated (typeBody E resourceTypePattern attributes clients providers rType w).2
  = hydrated w ++
    flat_map (fun kc => if hydrates E rType attributes providers kc
                        then [(listing E rType kc).1] else []) clients.
Proof.
  intros Hok. rewrite typeBody_clients by done. cbn zeta.
  destruct (clientEffect_frame rType attributes providers clients w)
    as (_ & _ & _ & _ & _ & _ & Hh).
  destruct (length _ =? 0)%nat; [done|].
  destruct (printResourcesCsv E _ _ _ _ _) as [o w'] eqn:Hp.
  apply printResourcesCsv_quiet in Hp as [Hq _]. cbn [snd]. by rewrite Hq.
Qed.

Lemma typeBody_export (resourceTypePattern rType : string) attributes clients
    providers w :
  fsOK E resourceTypePattern ->
  Forall (accountOK E) clients ->
  flat_map (collects E rType attributes providers) clients <> [] ->
  typeBody E resourceTypePattern attributes clients providers rType w =
  (Returned tt,
   exported E resourceTypePattern
     (flat_map (collects E rType attributes providers) clients)
     (fold_left (mapAfter E rType attributes providers) clients ∅)
     attributes
     (fold_left (clientEffect E rType attributes providers) clients w)).
Proof.
  intros Hfs Hok Hne. rewrite typeBody_clients by done. cbn zeta.
  rewrite length_eqb_0 by done. by apply printResourcesCsv_ok.
Qed.

Lemma typeBody_nothing (resourceTypePattern rType : string) attributes clients
    providers w :
  Forall (accountOK E) clients ->
  flat_map (collects E rType attributes providers) clients = [] ->
  typeBody E resourceTypePattern attributes clients providers rType w =
  (Returned tt, fold_left (clientEffect E rType attributes providers) clients w).
Proof.
  intros Hok Hnil. rewrite typeBody_clients by done. cbn zeta. by rewrite Hnil.
Qed.

Lemma app_changes {A} (l x : list A) : l ++ x <> l <-> x <> [].
Proof.
  split.
  - intros Hne ->. by rewrite app_nil_r in Hne.
  - intros Hne Heq. apply Hne.
    apply (app_inv_head l). by rewrite app_nil_r.
Qed.

Lemma trace_nonempty {A B} (h : A -> bool) (f : A -> B) (l : list A) :
  flat_map (fun a => if h a then [f a] else []) l <> [] <->
  Exists (fun a => h a = true) l.
Proof.
  induction l as [|a l IH]; cbn.
  - split; [done|]. by intros ?%Exists_nil.
  - rewrite Exists_cons. destruct (h a); cbn.
    + split; [by left|done].
    + rewrite IH. split; [by right|by intros [|]].
Qed.

Lemma trace_empty {A B} (h : A -> bool) (f : A -> B) (l : list A) :
  Forall (fun a => h a = false) l ->
  flat_map (fun a => if h a then [f a] else []) l = [].
Proof.
  induction 1 as [|a l Ha _ IH]; cbn; [done|]. by rewrite Ha, IH.
Qed.

Lemma unsupported_empty (rType : string) attributes providers kc :
  (forall attr : string, ~ supported E rType attributes providers kc attr) ->
  (schema E rType attributes providers kc).1 = ∅.
Proof.
  intros Hno. apply map_empty. intros attr.
  destruct (_ !! attr) eqn:Hl; [|done]. exfalso. apply (Hno attr).
  unfold supported. by rewrite Hl.
Qed.

Lemma unsupported_collects (rType : string) attributes providers clients :
  (forall kc (attr : string),
      kc ∈ clients -> ~ supported E rType attributes providers kc attr) ->
  flat_map (collects E rType attributes providers) clients
    = flat_map (fetched E rType attributes providers) clients /\
  fold_left (mapAfter E rType attributes providers) clients ∅ = ∅ /\
  Forall (fun kc => hydrates E rType attributes providers kc = false) clients.
Proof.
  induction clients as [|kc rest IH]; intros Hno; [done|].
  assert (Hkc : (schema E rType attributes providers kc).1 = ∅).
  { apply unsupported_empty. intros attr. apply Hno. by left. }
  destruct IH as (IH1 & IH2 & IH3).
  { intros kc' attr Hin. apply Hno. by right. }
  assert (Hc : collects E rType attributes providers kc
               = fetched E rType attributes providers kc).
  { unfold collects, fetched. by rewrite Hkc, map_size_empty. }
  assert (Hm : mapAfter E rType attributes providers ∅ kc = ∅).
  { unfold mapAfter. rewrite Hkc. by destruct ((listing E rType kc).2). }
  assert (Hh : hydrates E rType attributes providers kc = false).
  { unfold hydrates. rewrite Hkc, map_size_empty.
    by destruct ((listing E rType kc).2),
                ((schema E rType attributes providers kc).2). }
  cbn [flat_map fold_left]. rewrite IH1, Hc, Hm.
  repeat split; [done|]. by constructor.
Qed.

Lemma specRow_empty attributes r :
  specRow E ∅ attributes r = unsupportedRow E attributes r.
Proof.
  unfold specRow, unsupportedRow. f_equal.
  induction attributes as [|a rest IH]; [done|].
  cbn. rewrite IH. unfold specValue. by rewrite lookup_empty.
Qed.

Lemma hydrates_nonempty (rType : string) attributes providers kc :
  hydrates E rType attributes providers kc = true <->
  (listing E rType kc).2 = None /\
  (schema E rType attributes providers kc).2 = None /\
  (schema E rType attributes providers kc).1 <> ∅.
Proof.
  rewrite hydrates_true. unfold supported.
  split; intros (Hl & Hs & Hm); (split; [done|]); (split; [done|]).
  - destruct Hm as (attr & b & Hb). intros Hempty.
    by rewrite Hempty, lookup_empty in Hb.
  - destruct (map_choose _ Hm) as (attr & b & Hb). by exists attr, b.
Qed.

Lemma specRow_unrequested hasAttrs attributes r :
  (forall attr : string, attr ∈ attributes -> hasAttrs !! attr = None) ->
  specRow E hasAttrs attributes r = unsupportedRow E attributes r.
Proof.
  intros Hno. unfold specRow, unsupportedRow. f_equal.
  induction attributes as [|a rest IH]; [done|].
  cbn. rewrite IH by (intros attr Hin; apply Hno; by right).
  unfold specValue. by rewrite (Hno a) by (by left).
Qed.

Lemma mapAfter_unrequested (rType : string) attributes providers clients hasAttrs :
  (forall kc (attr : string), kc ∈ clients -> attr ∈ attributes ->
      ~ supported E rType attributes providers kc attr) ->
  (forall attr : string, attr ∈ attributes -> hasAttrs !! attr = None) ->
  forall attr : string, attr ∈ attributes ->
    fold_left (mapAfter E rType attributes providers) clients hasAttrs !! attr = None.
Proof.
  revert hasAttrs. induction clients as [|kc rest IH]; intros hasAttrs Hno Hm; [done|].
  cbn [fold_left]. apply IH.
  - intros kc' attr Hin. apply Hno. by right.
  - intros attr Hattr. unfold mapAfter.
    destruct ((listing E rType kc).2); [by apply Hm|].
    destruct (_ !! attr) as [b|] eqn:Hb; [|done].
    exfalso. apply (Hno kc attr); [by left|done|]. unfold supported. by rewrite Hb.
Qed.

(** C1, as the code has it: when the account identity of every client
    resolves, [resource.GetStates] is called for a resource type exactly
    when, for at least one client, the listing succeeds and the schema
    query succeeds with a support map that is not empty; where the maps of
    the resolver have requested attributes only as keys, that is: with at
    least one requested attribute supported.  When no requested attribute
    is supported by the provider of any client, every attribute column of
    every row built for the export reads N/A (the file holds what the
    final flush lets through of these rows), and, the maps having
    requested attributes only as keys, nothing is hydrated and the
    resources exported are the ones the fetcher returned. *)
Theorem C1_hydration_iff_supported_and_listed (resourceTypePattern rType : string)
    attributes clients providers w :
  Forall (accountOK E) clients ->
  let w' := (typeBody E resourceTypePattern attributes clients providers rType w).2 in
  let resources := flat_map (collects E rType attributes providers) clients in
  let hasAttrs := fold_left (mapAfter E rType attributes providers) clients ∅ in
  let onlyRequested :=
    forall kc (attr : string), kc ∈ clients ->
      supported E rType attributes providers kc attr -> attr ∈ attributes in
  (exists w1,
      clientLoop E rType attributes providers clients [] ∅ w
      = (Returned (resources, hasAttrs), w1)) /\
  (hydrated w' <> hydrated w <->
   Exists (fun kc =>
     (listing E rType kc).2 = None /\
     (schema E rType attributes providers kc).2 = None /\
     (schema E rType attributes providers kc).1 <> ∅) clients) /\
  (onlyRequested ->
   (hydrated w' <> hydrated w <->
    Exists (fun kc =>
      (listing E rType kc).2 = None /\
      (schema E rType attributes providers kc).2 = None /\
      exists attr : string,
        attr ∈ attributes /\ supported E rType attributes providers kc attr)
      clients)) /\
  ((forall kc (attr : string), kc ∈ clients -> attr ∈ attributes ->
       ~ supported E rType attributes providers kc attr) ->
   (forall r w0, exists w1,
       resourceRow E hasAttrs attributes r w0
       = (Returned (unsupportedRow E attributes r), w1)) /\
   (fsOK E resourceTypePattern -> resources <> [] ->
    files w' !! csvPath E resourceTypePattern =
    Some (Flush E (specHeader attributes ::
                   map (unsupportedRow E attributes) resources)).1) /\
   (onlyRequested ->
    hydrated w' = hydrated w /\
    resources = flat_map (fetched E rType attributes providers) clients)).
Proof.
  intros Hok w' resources hasAttrs onlyRequested.
  subst w' resources hasAttrs onlyRequested.
  rewrite typeBody_hydrated by done.
  assert (Hiff : hydrated w ++
                   flat_map (fun kc => if hydrates E rType attributes providers kc
                                       then [(listing E rType kc).1] else []) clients
                 <> hydrated w <->
                 Exists (fun kc => hydrates E rType attributes providers kc = true)
                        clients)
    by (by rewrite app_changes, trace_nonempty).
  split; [|split; [|split]].
  - eexists. by rewrite clientLoop_ok.
  - rewrite Hiff. split; intros Hex; eapply Exists_impl; try exact Hex;
      intros kc; apply hydrates_nonempty.
  - intros Honly. rewrite Hiff, !Exists_exists.
    split; intros (kc & Hin & Hkc); exists kc; (split; [done|]).
    + apply hydrates_true in Hkc as (Hl & Hs & attr & Hattr).
      repeat split; try done. exists attr. split; [by eapply Honly|done].
    + apply hydrates_true. destruct Hkc as (Hl & Hs & attr & _ & Hattr).
      repeat split; try done. by exists attr.
  - intros Hno.
    assert (Hmap : forall attr : string, attr ∈ attributes ->
              fold_left (mapAfter E rType attributes providers) clients ∅ !! attr
              = None).
    { apply mapAfter_unrequested; [done|]. intros attr _. apply lookup_empty. }
    split; [|split].
    + intros r w0. eexists. rewrite resourceRow_spec.
      by rewrite specRow_unrequested.
    + intros Hfs Hne. rewrite typeBody_export by done. cbn [snd].
      rewrite exported_files, lookup_insert_eq.
      rewrite (map_ext _ (unsupportedRow E attributes)); [done|].
      intros r. by apply specRow_unrequested.
    + intros Honly.
      destruct (unsupported_collects rType attributes providers clients)
        as (Hc & _ & Hh).
      { intros kc attr Hin Hsup. apply (Hno kc attr Hin); [|done].
        by eapply Honly. }
      split; [|done]. by rewrite (trace_empty _ _ _ Hh), app_nil_r.
Qed.

Lemma exported_dirs (resourceTypePattern : string)
    (resources : list (@Resource Time)) hasAttrs attributes w :
  dirs (exported E resourceTypePattern resources hasAttrs attributes w) =
  {["aws-resources/"%string]} ∪ dirs w.
Proof.
  unfold exported. cbn.
  by destruct (logAll_frame
    (flat_map (specLog E hasAttrs attributes) resources)
    (store (csvPath E resourceTypePattern) [] (mkdir "aws-resources/" w)))
    as (_ & _ & -> & _).
Qed.

(** C2, as the code has it: for a matched resource type with a non-empty
    resource collection, and when os.MkdirAll, os.Create and every Write of
    the csv writer succeed, the export writes exactly one file, and its
    path is built from the pattern given to [printResource], not from the
    matched type: filepath.Join of aws-resources/ and <pattern>.csv.  The
    csv writer is given the header TYPE, ID, CREATED followed by the
    requested attribute names, then one row per resource; the file holds
    what the final flush lets through of that table, whatever it held
    before, and the whole table when the flush succeeds; no other file
    changes, and the directory exists afterwards. *)
Theorem C2_one_file_named_after_the_pattern (resourceTypePattern rType : string)
    attributes clients providers w :
  fsOK E resourceTypePattern ->
  Forall (accountOK E) clients ->
  let resources := flat_map (collects E rType attributes providers) clients in
  let hasAttrs := fold_left (mapAfter E rType attributes providers) clients ∅ in
  resources <> [] ->
  exists w' (rows : list (list string)),
    typeBody E resourceTypePattern attributes clients providers rType w
      = (Returned tt, w') /\
    let table := (["TYPE"; "ID"; "CREATED"]%string ++ attributes) :: rows in
    files w' !! Join E "aws-resources/" (resourceTypePattern +:+ ".csv")
      = Some (Flush E table).1 /\
    (Flush E table = (table, None) ->
     files w' !! Join E "aws-resources/" (resourceTypePattern +:+ ".csv")
       = Some table) /\
    rows = map (specRow E hasAttrs attributes) resources /\
    length rows = length resources /\
    (forall path : string,
        path <> Join E "aws-resources/" (resourceTypePattern +:+ ".csv") ->
        files w' !! path = files w !! path) /\
    "aws-resources/"%string ∈ dirs w'.
Proof.
  intros Hfs Hok resources hasAttrs Hne.
  eexists _, _. split; [by apply typeBody_export|].
  cbn zeta. rewrite exported_files, exported_dirs. unfold specHeader.
  destruct (clientEffect_frame rType attributes providers clients w)
    as (_ & _ & _ & _ & -> & _).
  fold (csvPath E resourceTypePattern).
  split; [by rewrite lookup_insert_eq|].
  split; [intros Hflush; by rewrite lookup_insert_eq, Hflush|].
  split; [done|]. split; [by rewrite length_map|].
  split; [|set_solver].
  intros path Hpath. by rewrite lookup_insert_ne.
Qed.

Lemma mapAfter_last (rType : string) attributes providers
    (before after : list (AWSClientKey * Client)) kc hasAttrs :
  (listing E rType kc).2 = None ->
  Forall (fun kc' => (listing E rType kc').2 <> None) after ->
  fold_left (mapAfter E rType attributes providers) (before ++ kc :: after) hasAttrs
  = (schema E rType attributes providers kc).1.
Proof.
  intros Hkc Hafter. rewrite fold_left_app. cbn [fold_left].
  unfold mapAfter at 2. rewrite Hkc.
  induction Hafter as [|kc' rest Hkc' _ IH]; [done|].
  cbn [fold_left]. unfold mapAfter at 2.
  by destruct ((listing E rType kc').2).
Qed.

(** C4, as the code has it: the support map is assigned anew, whatever
    it held before, by the schema query of each client whose listing
    succeeds, and a client whose listing fails leaves it as it is; the one
    in force when the rows are built is the result of the query that ran
    last, the one of the last client, in the order of the loop, whose
    listing succeeded.  The export of the type is run with that map on the
    whole collection, so every row, whichever client its resource came
    from, is built with it. *)
Theorem C4_last_schema_query_wins (resourceTypePattern rType : string)
    attributes providers (before : list (AWSClientKey * Client)) kc
    (after : list (AWSClientKey * Client)) w :
  Forall (accountOK E) (before ++ kc :: after) ->
  (listing E rType kc).2 = None ->
  Forall (fun kc' => (listing E rType kc').2 <> None) after ->
  let clients := before ++ kc :: after in
  let resources := flat_map (collects E rType attributes providers) clients in
  let last := (schema E rType attributes providers kc).1 in
  (forall (resources0 : list (@Resource Time)) hasAttrs0 w0,
      exists (resources1 : list (@Resource Time)) w1,
        clientBody E rType attributes providers kc resources0 hasAttrs0 w0
        = (Returned (resources1, last), w1)) /\
  (forall kc' (resources0 : list (@Resource Time)) hasAttrs0 w0,
      accountOK E kc' -> (listing E rType kc').2 <> None ->
      exists w1,
        clientBody E rType attributes providers kc' resources0 hasAttrs0 w0
        = (Returned (resources0, hasAttrs0), w1)) /\
  (exists w1,
      clientLoop E rType attributes providers clients [] ∅ w
      = (Returned (resources, last), w1)) /\
  (resources <> [] ->
   typeBody E resourceTypePattern attributes clients providers rType w =
   printResourcesCsv E resourceTypePattern resources last attributes
     (fold_left (clientEffect E rType attributes providers) clients w)) /\
  (forall r w0, exists w1,
      resourceRow E last attributes r w0
      = (Returned (specRow E last attributes r), w1)) /\
  (fsOK E resourceTypePattern -> resources <> [] ->
   exists w',
     typeBody E resourceTypePattern attributes clients providers rType w
       = (Returned tt, w') /\
     files w' !! csvPath E resourceTypePattern
       = Some (Flush E (specHeader attributes ::
                        map (specRow E last attributes) resources)).1).
Proof.
  intros Hok Hkc Hafter clients resources last.
  subst clients resources last.
  assert (Hlast := mapAfter_last _ attributes providers before after kc ∅ Hkc Hafter).
  split; [|split; [|split; [|split; [|split]]]].
  - intros resources0 hasAttrs0 w0. eexists _, _.
    rewrite clientBody_ok.
    + unfold mapAfter. by rewrite Hkc.
    + apply Forall_app in Hok as [_ Hok]. by apply Forall_cons in Hok as [? _].
  - intros kc' resources0 hasAttrs0 w0 Hacc Hfail. eexists.
    rewrite clientBody_ok by done. unfold collects, mapAfter.
    destruct ((listing E rType kc').2); [|done]. by rewrite app_nil_r.
  - eexists. rewrite clientLoop_ok by done. cbn [app]. by rewrite Hlast.
  - intros Hne. rewrite typeBody_clients by done. cbn zeta.
    rewrite length_eqb_0 by done. by rewrite Hlast.
  - intros r w0. eexists. apply resourceRow_spec.
  - intros Hfs Hne. eexists. split; [by apply typeBody_export|].
    rewrite exported_files, lookup_insert_eq. by rewrite Hlast.
Qed.

(** *** The control flow of [printResource] *)

Lemma printResource_no_match (resourceTypePattern : string)
    attributes clients providers w :
  MatchSupportedTypes E resourceTypePattern = ([], None) ->
  printResource E resourceTypePattern attributes clients providers w =
  (Returned tt,
   say (RedString E ("Error: no resource type found: " +:+ resourceTypePattern +:+ nl)) w).
Proof. intros Hm. unfold printResource, bind. by rewrite Hm. Qed.

(** C7: a pattern that matches no resource type is not fatal.
    [printResource] reports it on the error stream and returns, so that
    what follows it runs; no file and no directory is created. *)
Theorem C7_zero_matches_is_not_fatal (resourceTypePattern : string)
    attributes clients providers w :
  MatchSupportedTypes E resourceTypePattern = ([], None) ->
  exists w',
    printResource E resourceTypePattern attributes clients providers w
      = (Returned tt, w') /\
    stderr w' = stderr w ++
      [RedString E ("Error: no resource type found: " +:+ resourceTypePattern +:+ nl)] /\
    files w' = files w /\ dirs w' = dirs w /\
    forall (A : Type) (k : unit -> @M Time A),
      bind (printResource E resourceTypePattern attributes clients providers) k w
      = k tt w'.
Proof.
  intros Hm. eexists. split; [by apply printResource_no_match|].
  unfold bind. rewrite printResource_no_match by done.
  repeat split; reflexivity.
Qed.

(** C6, as the code has it: a malformed glob pattern is reported on the
    error stream and then [printResource] panics with the matcher's error.
    Nothing that follows runs, no type is processed, and no file is
    written. *)
Theorem C6_invalid_pattern_panics (resourceTypePattern : string)
    attributes clients providers w (ts : list string) (err : error) :
  MatchSupportedTypes E resourceTypePattern = (ts, Some err) ->
  exists w',
    printResource E resourceTypePattern attributes clients providers w
      = (Panicked err, w') /\
    stderr w' = stderr w ++
      [RedString E ("Error: invalid glob pattern: " +:+ resourceTypePattern +:+ nl)] /\
    files w' = files w /\ hydrated w' = hydrated w /\
    forall (A : Type) (k : unit -> @M Time A),
      bind (printResource E resourceTypePattern attributes clients providers) k w
      = (Panicked err, w').
Proof.
  intros Hm. eexists. unfold printResource, bind. rewrite Hm. cbn.
  repeat split; reflexivity.
Qed.

(** C3, as the code has it: when the schema query of a client fails, the
    failure is reported on the error stream and the loop goes on with the
    next client, with the resources collected so far: the resources
    fetched for the failing client are not added, so they are not
    exported. *)
Theorem C3_schema_failure_drops_client (rType : string) attributes providers kc
    (rest : list (AWSClientKey * Client))
    (resources : list (@Resource Time)) hasAttrs w (err : error) :
  accountOK E kc ->
  (listing E rType kc).2 = None ->
  (schema E rType attributes providers kc).2 = Some err ->
  collects E rType attributes providers kc = [] /\
  clientLoop E rType attributes providers (kc :: rest) resources hasAttrs w =
  clientLoop E rType attributes providers rest resources
    (schema E rType attributes providers kc).1
    (say (RedString E
            ("Error: failed to check if resource type has attribute: "
             +:+ err +:+ nl)) w).
Proof.
  intros Hacc Hlist Hschema.
  assert (Hc : collects E rType attributes providers kc = []).
  { unfold collects. by rewrite Hlist, Hschema. }
  split; [done|].
  cbn [clientLoop]. unfold bind. rewrite clientBody_ok by done.
  rewrite Hc, app_nil_r. cbn [fst snd].
  unfold mapAfter, clientEffect. by rewrite Hlist, Hschema.
Qed.

(** *** The exit status *)

Lemma started_frame (fl : Flags) w :
  stderr (started fl w) = stderr w /\ files (started fl w) = files w /\
  dirs (started fl w) = dirs w /\ closed (started fl w) = closed w.
Proof. unfold started. by destruct (logDebug fl). Qed.

Lemma main_run (fl : Flags) clients providers w :
  setupOK E fl clients providers ->
  main E fl w =
  match printResource E "aws_instance" ["private_ip"; "public_ip"; "tags"]%string
          clients providers (started fl w) with
  | (Returned _, w1) => (0, finished providers w1)
  | (Panicked e, w1) => (2, say (PanicReport E e) (finished providers w1))
  end.
Proof.
  intros Hs. unfold main. rewrite (mainExitCode_run _ clients providers) by done.
  by destruct (printResource _ _ _ _ _ _) as [[[]|e] w1].
Qed.

Lemma printResource_account_panic (resourceTypePattern : string) attributes
    clients providers w (rType : string) (ts : list string) :
  MatchSupportedTypes E resourceTypePattern = (rType :: ts, None) ->
  Exists (fun kc => ~ accountOK E kc) clients ->
  exists (err : error) (before : list (AWSClientKey * Client)) kc
         (after : list (AWSClientKey * Client)),
    clients = before ++ kc :: after /\
    Forall (accountOK E) before /\
    (SetAccountID E kc.2).2 = Some err /\
    printResource E resourceTypePattern attributes clients providers w =
    (Panicked err,
     say (RedString E ("Error " +:+ rType +:+ ": " +:+ err +:+ nl))
       (fold_left (clientEffect E rType attributes providers) before w)).
Proof.
  intros Hm Hex.
  destruct (clientLoop_panic rType attributes providers clients [] ∅ w Hex)
    as (err & before & kc & after & Hsplit & Hbefore & Hkc & Hloop).
  exists err, before, kc, after. repeat split; try done.
  unfold printResource. rewrite Hm. cbn [length Nat.eqb].
  unfold bind at 1. cbn [ret typeLoop]. unfold bind at 1.
  unfold typeBody, bind. by rewrite Hloop.
Qed.

(** C5, as the code has it: when the account identity of a client does
    not resolve, the client is not skipped: the run is aborted at the
    first such client of the first matched type.  A message naming the
    type and the error is written to the error stream, [printResource]
    panics, no file is written, the providers are closed by the deferred
    call, and the process ends with the exit status of a panic, 2; the
    report of the runtime is all that follows the message on the error
    stream. *)
Theorem C5_account_failure_panics (fl : Flags) clients providers w
    (rType : string) (ts : list string) :
  setupOK E fl clients providers ->
  MatchSupportedTypes E "aws_instance" = (rType :: ts, None) ->
  Exists (fun kc => ~ accountOK E kc) clients ->
  exists (err : error) kc w',
    kc ∈ clients /\ (SetAccountID E kc.2).2 = Some err /\
    main E fl w = (2, w') /\
    (exists earlier : list string,
        stderr w' = earlier ++
          [RedString E ("Error " +:+ rType +:+ ": " +:+ err +:+ nl);
           PanicReport E err]) /\
    files w' = files w /\
    closed w' = dom providers ∪ closed w.
Proof.
  intros Hs Hm Hex.
  destruct (printResource_account_panic "aws_instance"
              ["private_ip"; "public_ip"; "tags"]%string clients providers
              (started fl w) rType ts Hm Hex)
    as (err & before & kc & after & Hsplit & Hbefore & Hkc & Hp).
  exists err, kc. eexists. split.
  { rewrite Hsplit. apply elem_of_app. right. by left. }
  split; [done|].
  rewrite (main_run _ clients providers) by done. rewrite Hp.
  split; [done|]. cbn.
  destruct (clientEffect_frame rType ["private_ip"; "public_ip"; "tags"]%string
              providers before (started fl w)) as (_ & _ & _ & _ & -> & -> & _).
  destruct (started_frame fl w) as (_ & -> & _ & ->).
  split; [|done]. eexists. by rewrite <- app_assoc.
Qed.

Lemma collects_nothing (rType : string) attributes providers clients :
  Forall (fun kc => (listing E rType kc).2 <> None \/
                    (schema E rType attributes providers kc).2 <> None) clients ->
  flat_map (collects E rType attributes providers) clients = [].
Proof.
  induction 1 as [|kc rest Hkc _ IH]; [done|].
  cbn [flat_map]. rewrite IH, app_nil_r. unfold collects.
  destruct ((listing E rType kc).2); [done|].
  destruct ((schema E rType attributes providers kc).2); [done|].
  by destruct Hkc.
Qed.

Lemma typeLoop_nothing (resourceTypePattern : string) attributes clients providers
    (ts : list string) w :
  Forall (accountOK E) clients ->
  Forall (fun rType =>
    flat_map (collects E rType attributes providers) clients = []) ts ->
  exists w',
    typeLoop E resourceTypePattern attributes clients providers ts w
    = (Returned tt, w').
Proof.
  intros Hok Hts. revert w.
  induction Hts as [|rType rest Hnil _ IH]; intros w; [by eexists|].
  cbn [typeLoop]. unfold bind. rewrite typeBody_nothing by done. apply IH.
Qed.

(** C10: once the flags are valid, the profiles are found and both pools
    are built, the exit status is 0 unless [mainExitCode] panics, however
    many resource types or clients failed.  In particular it is 0 when no
    type matches, and when for every matched type the listing or the
    schema query of every client fails. *)
Theorem C10_exit_status_zero_after_setup (fl : Flags) clients providers w :
  setupOK E fl clients providers ->
  ((forall (e : error) w', mainExitCode E fl w <> (Panicked e, w')) ->
   (main E fl w).1 = 0 /\
   exists w', mainExitCode E fl w = (Returned 0, w')) /\
  (MatchSupportedTypes E "aws_instance" = ([], None) ->
   (main E fl w).1 = 0) /\
  (forall ts : list string,
      MatchSupportedTypes E "aws_instance" = (ts, None) ->
      Forall (accountOK E) clients ->
      (forall (rType : string) kc, rType ∈ ts -> kc ∈ clients ->
          (listing E rType kc).2 <> None \/
          (schema E rType ["private_ip"; "public_ip"; "tags"]%string providers kc).2
            <> None) ->
      (main E fl w).1 = 0).
Proof.
  intros Hs. split; [|split].
  - intros Hnp. rewrite (main_run _ clients providers) by done.
    pose proof (mainExitCode_run fl clients providers w Hs) as Hrun.
    destruct (printResource _ _ _ _ _ _) as [[[]|e] w1].
    + split; [done|]. by eexists.
    + exfalso. by eapply Hnp.
  - intros Hm. rewrite (main_run _ clients providers) by done.
    by rewrite printResource_no_match.
  - intros ts Hm Hok Hfail. rewrite (main_run _ clients providers) by done.
    unfold printResource. rewrite Hm. unfold bind at 1.
    destruct (typeLoop_nothing "aws_instance"
                ["private_ip"; "public_ip"; "tags"]%string clients providers ts
                ((if (length ts =? 0)%nat
                  then say (RedString E
                         ("Error: no resource type found: " +:+ "aws_instance" +:+ nl))
                  else fun w => w) (started fl w)) Hok) as (w' & Hloop).
    { apply Forall_forall. intros rType Hin. apply collects_nothing.
      apply Forall_forall. intros kc Hkc. by apply Hfail. }
    destruct (length ts =? 0)%nat; cbn [eprint modify ret];
      by rewrite Hloop.
Qed.

End Properties.

(** ** The properties on the concrete installation *)

Lemma demo_fsOK (registry : list string) (resourceTypePattern : string) :
  fsOK (Demo.env registry) resourceTypePattern.
Proof. repeat split. Defined.

Lemma C8_witness :
  Demo.requested !! 1%nat = Some "public_ip"%string /\
  Demo.onlyTags !! "public_ip"%string = None /\
  exists w' (rows : list (list string)),
    printResourcesCsv Demo.aws "aws_instance"
      [Demo.hydrate (Demo.instance "dev"); Demo.hydrate (Demo.instance "prod")]
      Demo.onlyTags Demo.requested Demo.used = (Returned tt, w') /\
    files w' !! csvPath Demo.aws "aws_instance"
      = Some (specHeader Demo.requested :: rows) /\
    length rows = 2%nat /\
    Forall (fun row : list string => row !! 4%nat = Some "N/A"%string) rows.
Proof.
  split; [reflexivity|]. split; [reflexivity|].
  apply (C8_unsupported_attribute_reads_NA Demo.aws "aws_instance"
           [Demo.hydrate (Demo.instance "dev"); Demo.hydrate (Demo.instance "prod")]
           Demo.onlyTags Demo.requested Demo.used 1 "public_ip");
    [reflexivity|reflexivity|apply demo_fsOK].
Defined.

Lemma C9_witness :
  Demo.requested !! 1%nat = Some "public_ip"%string /\
  is_Some (Demo.allThree !! "public_ip"%string) /\
  (GetAttribute Demo.aws "public_ip" (Demo.hydrate (Demo.instance "dev"))).2
    = Some "attribute not set"%string /\
  forall w0, exists (row : list string) w1,
    resourceRow Demo.aws Demo.allThree Demo.requested
      (Demo.hydrate (Demo.instance "dev")) w0 = (Returned row, w1) /\
    row !! 4%nat = Some "error"%string /\
    {| entryLevel := DebugLevel;
       entryFields := [("type", "aws_instance"); ("id", "i-dev")]%string;
       entryError := Some "attribute not set"%string;
       entryMessage := "failed to get attribute" |} ∈ logged w1.
Proof.
  split; [reflexivity|]. split; [by eexists|]. split; [reflexivity|].
  apply (C9_failed_extraction_reads_error Demo.aws "aws_instance"
           [Demo.hydrate (Demo.instance "dev")]
           Demo.allThree Demo.requested Demo.fresh 1 "public_ip"
           (Demo.hydrate (Demo.instance "dev")) "attribute not set");
    [reflexivity|by eexists|reflexivity].
Defined.

Lemma C7_witness :
  MatchSupportedTypes Demo.aws "aws_lambda_function" = ([], None) /\
  exists w',
    printResource Demo.aws "aws_lambda_function" Demo.requested
      (Demo.pool ["dev"; "prod"]%string) (Demo.providersFor ["dev"; "prod"]%string)
      Demo.used = (Returned tt, w') /\
    stderr w' = ["Error: no resource type found: aws_lambda_function" +:+ nl] /\
    files w' = files Demo.used.
Proof.
  split; [reflexivity|].
  destruct (C7_zero_matches_is_not_fatal Demo.aws "aws_lambda_function"
              Demo.requested (Demo.pool ["dev"; "prod"]%string)
              (Demo.providersFor ["dev"; "prod"]%string) Demo.used eq_refl)
    as (w' & Hrun & Herr & Hfiles & _).
  exists w'. split; [exact Hrun|]. split; [exact Herr|exact Hfiles].
Defined.

Lemma C6_witness :
  MatchSupportedTypes Demo.aws "[" = ([], Some "syntax error in pattern"%string) /\
  exists w',
    printResource Demo.aws "[" Demo.requested
      (Demo.pool ["dev"; "prod"]%string) (Demo.providersFor ["dev"; "prod"]%string)
      Demo.used = (Panicked "syntax error in pattern", w') /\
    stderr w' = ["Error: invalid glob pattern: [" +:+ nl] /\
    files w' = files Demo.used.
Proof.
  split; [reflexivity|].
  destruct (C6_invalid_pattern_panics Demo.aws "["
              Demo.requested (Demo.pool ["dev"; "prod"]%string)
              (Demo.providersFor ["dev"; "prod"]%string) Demo.used []
              "syntax error in pattern" eq_refl)
    as (w' & Hrun & Herr & Hfiles & _).
  exists w'. split; [exact Hrun|]. split; [exact Herr|exact Hfiles].
Defined.

(** A malformed pattern: [printResource] does not return. *)
Lemma C6_counterexample :
  (MatchSupportedTypes Demo.aws "[").2 = Some "syntax error in pattern"%string /\
  ~ exists w',
      printResource Demo.aws "[" Demo.requested
        (Demo.pool ["dev"]%string) (Demo.providersFor ["dev"]%string) Demo.fresh
      = (Returned tt, w').
Proof.
  split; [reflexivity|]. intros [w' Hrun]. vm_compute in Hrun. discriminate Hrun.
Qed.

Lemma demo_accounts (registry : list string) (ps : list string) :
  forallb (fun p => negb (String.eqb p "expired")) ps = true ->
  Forall (accountOK (Demo.env registry)) (Demo.pool ps).
Proof.
  induction ps as [|p ps IH]; cbn [forallb]; intros Hps; [constructor|].
  apply andb_prop in Hps as [Hp Hps]. constructor; [|by apply IH].
  unfold accountOK. cbn. by destruct (String.eqb p "expired").
Defined.

(** The resolver of the installation answers for requested attributes
    only. *)
Lemma demo_only_requested (registry : list string) (rType : string)
    (attributes : list string) (providers : gmap AWSClientKey Demo.Provider)
    (kc : AWSClientKey * string) (attr : string) :
  supported (Demo.env registry) rType attributes providers kc attr ->
  attr ∈ attributes.
Proof.
  unfold supported, schema. cbn. unfold Demo.resolver.
  destruct (default _ _) as [attrs|err]; cbn; intros [b Hb].
  - apply elem_of_list_to_map_2, list_elem_of_In, in_map_iff in Hb
      as (a & [= -> _] & Hin).
    apply filter_In in Hin as [Hin _]. by apply list_elem_of_In.
  - by rewrite lookup_empty in Hb.
Defined.

(** The two clients of the spec's scenario: both listings succeed, the
    provider of [dev] supports the three attributes, so the type is
    hydrated. *)
Lemma C1_witness :
  Forall (accountOK Demo.aws) (Demo.pool ["dev"; "prod"]%string) /\
  (forall kc (attr : string), kc ∈ Demo.pool ["dev"; "prod"]%string ->
      supported Demo.aws "aws_instance" Demo.requested
        (Demo.providersFor ["dev"; "prod"]%string) kc attr ->
      attr ∈ Demo.requested) /\
  hydrated (typeBody Demo.aws "aws_instance" Demo.requested
              (Demo.pool ["dev"; "prod"]%string)
              (Demo.providersFor ["dev"; "prod"]%string)
              "aws_instance" Demo.fresh).2
    <> hydrated Demo.fresh.
Proof.
  assert (Honly : forall kc (attr : string), kc ∈ Demo.pool ["dev"; "prod"]%string ->
            supported Demo.aws "aws_instance" Demo.requested
              (Demo.providersFor ["dev"; "prod"]%string) kc attr ->
            attr ∈ Demo.requested).
  { intros kc attr _. apply demo_only_requested. }
  split; [by apply demo_accounts|]. split; [exact Honly|].
  destruct (C1_hydration_iff_supported_and_listed Demo.aws
              "aws_instance" "aws_instance"
              Demo.requested (Demo.pool ["dev"; "prod"]%string)
              (Demo.providersFor ["dev"; "prod"]%string) Demo.fresh
              (demo_accounts _ ["dev"; "prod"]%string eq_refl))
    as (_ & _ & Hiff & _).
  apply (Hiff Honly).
  apply Exists_cons_hd. split; [reflexivity|]. split; [vm_compute; reflexivity|].
  exists "tags"%string. split; [by do 2 right; left|].
  eexists. vm_compute. reflexivity.
Defined.

(** The listing of the only client fails while its provider supports the
    requested attributes: nothing is hydrated. *)
Lemma C1_counterexample :
  let clients := Demo.pool ["offline"]%string in
  let providers := Demo.providersFor ["offline"]%string in
  let w' := (typeBody Demo.aws "aws_instance" Demo.requested clients providers
               "aws_instance" Demo.fresh).2 in
  ~ (hydrated w' <> hydrated Demo.fresh <->
     exists kc (attr : string),
       kc ∈ clients /\ attr ∈ Demo.requested /\
       supported Demo.aws "aws_instance" Demo.requested providers kc attr).
Proof.
  intros clients providers w' [_ Hclaim]. apply Hclaim; [|vm_compute; reflexivity].
  exists (Demo.key "offline", "offline"%string), "tags"%string.
  split; [by left|]. split; [by do 2 right; left|].
  eexists. vm_compute. reflexivity.
Qed.

Lemma C2_witness :
  fsOK Demo.aws "aws_instance" /\
  Forall (accountOK Demo.aws) (Demo.pool ["dev"; "prod"]%string) /\
  exists w',
    typeBody Demo.aws "aws_instance" Demo.requested
      (Demo.pool ["dev"; "prod"]%string) (Demo.providersFor ["dev"; "prod"]%string)
      "aws_instance" Demo.used = (Returned tt, w') /\
    files w' !! "aws-resources/aws_instance.csv"%string =
    Some [["TYPE"; "ID"; "CREATED"; "private_ip"; "public_ip"; "tags"];
          ["aws_instance"; "i-dev"; "2020-07-01 12:00:00"; "N/A"; "N/A"; "{}"];
          ["aws_instance"; "i-prod"; "2020-07-01 12:00:00"; "N/A"; "N/A"; "{}"]]%string.
Proof.
  split; [apply demo_fsOK|]. split; [by apply demo_accounts|].
  destruct (C2_one_file_named_after_the_pattern Demo.aws "aws_instance" "aws_instance"
              Demo.requested (Demo.pool ["dev"; "prod"]%string)
              (Demo.providersFor ["dev"; "prod"]%string) Demo.used
              (demo_fsOK _ _)
              (demo_accounts _ ["dev"; "prod"]%string eq_refl))
    as (w' & rows & Hrun & _ & Hfull & Hrows & _).
  { vm_compute. discriminate. }
  exists w'. split; [exact Hrun|]. rewrite Hrows in Hfull.
  etransitivity; [exact (Hfull eq_refl)|]. vm_compute. reflexivity.
Defined.

(** A glob that matches the instance type: the file is named after the
    glob, and no file is named after the type. *)
Lemma C2_counterexample :
  let w' := (printResource Demo.aws "aws_*" Demo.requested
               (Demo.pool ["dev"]%string) (Demo.providersFor ["dev"]%string)
               Demo.fresh).2 in
  MatchSupportedTypes Demo.aws "aws_*" = (["aws_instance"%string], None) /\
  files w' !! "aws-resources/aws_instance.csv"%string = None /\
  files w' !! "aws-resources/aws_*.csv"%string =
    Some [["TYPE"; "ID"; "CREATED"; "private_ip"; "public_ip"; "tags"];
          ["aws_instance"; "i-dev"; "2020-07-01 12:00:00"; "10.0.0.1"; "error"; "{}"]]%string.
Proof. repeat split; vm_compute; reflexivity. Qed.

Lemma C3_witness :
  accountOK Demo.aws (Demo.key "noschema", "noschema"%string) /\
  (listing Demo.aws "aws_instance" (Demo.key "noschema", "noschema"%string))
    = ([Demo.instance "noschema"], None) /\
  (schema Demo.aws "aws_instance" Demo.requested
     (Demo.providersFor ["noschema"; "dev"]%string)
     (Demo.key "noschema", "noschema"%string)).2 = Some "schema unavailable"%string /\
  clientLoop Demo.aws "aws_instance" Demo.requested
    (Demo.providersFor ["noschema"; "dev"]%string)
    (Demo.pool ["noschema"; "dev"]%string) [] ∅ Demo.fresh =
  clientLoop Demo.aws "aws_instance" Demo.requested
    (Demo.providersFor ["noschema"; "dev"]%string)
    (Demo.pool ["dev"]%string) [] ∅
    (say ("Error: failed to check if resource type has attribute: schema unavailable"
          +:+ nl) Demo.fresh).
Proof.
  assert (Hschema :
    (schema Demo.aws "aws_instance" Demo.requested
       (Demo.providersFor ["noschema"; "dev"]%string)
       (Demo.key "noschema", "noschema"%string)).2 = Some "schema unavailable"%string)
    by (vm_compute; reflexivity).
  split; [reflexivity|]. split; [reflexivity|]. split; [exact Hschema|].
  destruct (C3_schema_failure_drops_client Demo.aws "aws_instance" Demo.requested
              (Demo.providersFor ["noschema"; "dev"]%string)
              (Demo.key "noschema", "noschema"%string) (Demo.pool ["dev"]%string)
              [] ∅ Demo.fresh "schema unavailable" eq_refl eq_refl Hschema)
    as [_ Hloop].
  etransitivity; [exact Hloop|]. vm_compute. reflexivity.
Defined.

(** The listing of the client returns an instance and its schema query
    fails: the instance is not exported with N/A in its attribute columns,
    no file is written. *)
Lemma C3_counterexample :
  let kc := (Demo.key "noschema", "noschema"%string) in
  let providers := Demo.providersFor ["noschema"]%string in
  let w' := (typeBody Demo.aws "aws_instance" Demo.requested [kc] providers
               "aws_instance" Demo.fresh).2 in
  listing Demo.aws "aws_instance" kc = ([Demo.instance "noschema"], None) /\
  (schema Demo.aws "aws_instance" Demo.requested providers kc).2
    = Some "schema unavailable"%string /\
  ~ exists rows : list (list string),
      files w' !! "aws-resources/aws_instance.csv"%string = Some rows /\
      unsupportedRow Demo.aws Demo.requested (Demo.instance "noschema") ∈ rows.
Proof.
  split; [reflexivity|]. split; [vm_compute; reflexivity|].
  intros (rows & Hfile & _). vm_compute in Hfile. discriminate Hfile.
Qed.

(** The loop visits [prod], [dev] and a client whose listing fails: the
    query that ran last is the one of [dev], and both rows are built with
    its map. *)
Lemma C4_witness :
  Forall (accountOK Demo.aws) (Demo.pool ["prod"; "dev"; "offline"]%string) /\
  (listing Demo.aws "aws_instance" (Demo.key "dev", "dev"%string)).2 = None /\
  Forall (fun kc => (listing Demo.aws "aws_instance" kc).2 <> None)
         (Demo.pool ["offline"]%string) /\
  exists w',
    typeBody Demo.aws "aws_instance" Demo.requested
      (Demo.pool ["prod"; "dev"; "offline"]%string)
      (Demo.providersFor ["prod"; "dev"; "offline"]%string)
      "aws_instance" Demo.used = (Returned tt, w') /\
    files w' !! "aws-resources/aws_instance.csv"%string =
    Some [["TYPE"; "ID"; "CREATED"; "private_ip"; "public_ip"; "tags"];
          ["aws_instance"; "i-prod"; "2020-07-01 12:00:00"; "10.0.0.1"; "error"; "{}"];
          ["aws_instance"; "i-dev"; "2020-07-01 12:00:00"; "10.0.0.1"; "error"; "{}"]]%string.
Proof.
  assert (Hafter : Forall (fun kc => (listing Demo.aws "aws_instance" kc).2 <> None)
                          (Demo.pool ["offline"]%string)).
  { constructor; [vm_compute; discriminate|constructor]. }
  split; [by apply demo_accounts|]. split; [reflexivity|]. split; [exact Hafter|].
  destruct (C4_last_schema_query_wins Demo.aws "aws_instance" "aws_instance"
              Demo.requested (Demo.providersFor ["prod"; "dev"; "offline"]%string)
              (Demo.pool ["prod"]%string) (Demo.key "dev", "dev"%string)
              (Demo.pool ["offline"]%string) Demo.used
              (demo_accounts _ ["prod"; "dev"; "offline"]%string eq_refl)
              eq_refl Hafter) as (_ & _ & _ & _ & _ & Hexport).
  destruct (Hexport (demo_fsOK _ _)) as (w' & Hrun & Hfile).
  { vm_compute. discriminate. }
  exists w'. split; [exact Hrun|].
  etransitivity; [exact Hfile|]. vm_compute. reflexivity.
Defined.

(** The listing of the second client fails: the support map is not
    computed again for it, and stays the one of the first client, although
    the provider of the second would answer differently. *)
Lemma C4_counterexample :
  let clients := Demo.pool ["prod"; "offline"]%string in
  let providers := Demo.providersFor ["prod"; "offline"]%string in
  (schema Demo.aws "aws_instance" Demo.requested providers
     (Demo.key "offline", "offline"%string)).1 = Demo.allThree /\
  (clientLoop Demo.aws "aws_instance" Demo.requested providers clients [] ∅
     Demo.fresh).1
  = Returned ([Demo.hydrate (Demo.instance "prod")], Demo.onlyTags) /\
  Demo.onlyTags <> Demo.allThree.
Proof.
  split; [vm_compute; reflexivity|]. split; [vm_compute; reflexivity|].
  intros Heq.
  assert (Hl : Demo.onlyTags !! "public_ip"%string
               = Demo.allThree !! "public_ip"%string) by (by rewrite Heq).
  vm_compute in Hl. discriminate Hl.
Qed.

Lemma demo_setup_expired :
  setupOK Demo.aws (Demo.flagsFor ["dev"; "expired"; "prod"]%string)
    (Demo.pool ["dev"; "expired"; "prod"]%string)
    (Demo.providersFor ["dev"; "expired"; "prod"]%string).
Proof.
  split; [reflexivity|]. split; [by intros [_ ?]|].
  eexists. split; [reflexivity|]. split; reflexivity.
Defined.

Lemma demo_setup_failing (registry : list string) :
  setupOK (Demo.env registry) (Demo.flagsFor ["offline"; "noschema"]%string)
    (Demo.pool ["offline"; "noschema"]%string)
    (Demo.providersFor ["offline"; "noschema"]%string).
Proof.
  split; [reflexivity|]. split; [by intros [_ ?]|].
  eexists. split; [reflexivity|]. split; reflexivity.
Defined.

(** The token of the second client has expired. *)
Lemma C5_witness :
  setupOK Demo.aws (Demo.flagsFor ["dev"; "expired"; "prod"]%string)
    (Demo.pool ["dev"; "expired"; "prod"]%string)
    (Demo.providersFor ["dev"; "expired"; "prod"]%string) /\
  MatchSupportedTypes Demo.aws "aws_instance" = (["aws_instance"%string], None) /\
  Exists (fun kc => ~ accountOK Demo.aws kc)
         (Demo.pool ["dev"; "expired"; "prod"]%string) /\
  exists (err : error) w',
    main Demo.aws (Demo.flagsFor ["dev"; "expired"; "prod"]%string) Demo.used
      = (2, w') /\
    (exists earlier : list string,
        stderr w' = earlier ++
          ["Error aws_instance: " +:+ err +:+ nl; "panic: " +:+ err +:+ nl]) /\
    files w' = files Demo.used.
Proof.
  assert (Hex : Exists (fun kc => ~ accountOK Demo.aws kc)
                       (Demo.pool ["dev"; "expired"; "prod"]%string)).
  { apply Exists_cons_tl, Exists_cons_hd. intros Hok. discriminate Hok. }
  split; [exact demo_setup_expired|]. split; [reflexivity|]. split; [exact Hex|].
  destruct (C5_account_failure_panics Demo.aws
              (Demo.flagsFor ["dev"; "expired"; "prod"]%string)
              (Demo.pool ["dev"; "expired"; "prod"]%string)
              (Demo.providersFor ["dev"; "expired"; "prod"]%string)
              Demo.used "aws_instance" []
              demo_setup_expired eq_refl Hex)
    as (err & kc & w' & _ & _ & Hmain & Hlast & Hfiles & _).
  exists err, w'. split; [exact Hmain|]. split; [exact Hlast|exact Hfiles].
Defined.

(** The token of the only client has expired: the exit status is the one
    of a panic. *)
Lemma C5_counterexample :
  (SetAccountID Demo.aws "expired").2 = Some "ExpiredToken"%string /\
  (main Demo.aws (Demo.flagsFor ["expired"]%string) Demo.fresh).1 = 2 /\
  (main Demo.aws (Demo.flagsFor ["expired"]%string) Demo.fresh).1 <> 1.
Proof.
  split; [reflexivity|].
  assert (Hexit : (main Demo.aws (Demo.flagsFor ["expired"]%string) Demo.fresh).1 = 2)
    by (vm_compute; reflexivity).
  split; [exact Hexit|]. rewrite Hexit. discriminate.
Qed.

(** One client whose listing fails and one whose schema query fails, with
    a registry that knows the instance type and with one that knows no
    type at all. *)
Lemma C10_witness :
  setupOK Demo.aws (Demo.flagsFor ["offline"; "noschema"]%string)
    (Demo.pool ["offline"; "noschema"]%string)
    (Demo.providersFor ["offline"; "noschema"]%string) /\
  (main Demo.aws (Demo.flagsFor ["offline"; "noschema"]%string) Demo.fresh).1 = 0 /\
  (main Demo.bare (Demo.flagsFor ["offline"; "noschema"]%string) Demo.fresh).1 = 0.
Proof.
  split; [exact (demo_setup_failing _)|]. split.
  - destruct (C10_exit_status_zero_after_setup Demo.aws
                (Demo.flagsFor ["offline"; "noschema"]%string)
                (Demo.pool ["offline"; "noschema"]%string)
                (Demo.providersFor ["offline"; "noschema"]%string) Demo.fresh
                (demo_setup_failing _)) as (_ & _ & Hall).
    apply (Hall ["aws_instance"%string]);
      [reflexivity|by apply demo_accounts|].
    intros rType kc HrType Hkc.
    apply list_elem_of_singleton in HrType as ->.
    apply elem_of_cons in Hkc as [->|Hkc].
    { left. vm_compute. discriminate. }
    apply list_elem_of_singleton in Hkc as ->.
    right. vm_compute. discriminate.
  - destruct (C10_exit_status_zero_after_setup Demo.bare
                (Demo.flagsFor ["offline"; "noschema"]%string)
                (Demo.pool ["offline"; "noschema"]%string)
                (Demo.providersFor ["offline"; "noschema"]%string) Demo.fresh
                (demo_setup_failing _)) as (_ & Hnone & _).
    apply Hnone. reflexivity.
Defined.

(** ** Further properties of [main.go] *)

Section Further.

Context {Client TerraformProvider Time : Type}.
Variable E : @Externals Client TerraformProvider Time.

Implicit Types (w : @World Time) (r : @Resource Time)
  (hasAttrs : gmap string bool) (attributes : list string)
  (kc : AWSClientKey * Client) (clients : list (AWSClientKey * Client))
  (providers : gmap AWSClientKey TerraformProvider).

(** *** What a run leaves alone *)

Lemma confined_same (p : string) w w' :
  closed w' = closed w -> logLevel w' = logLevel w ->
  files w' = files w -> dirs w' = dirs w ->
  confined p w w'.
Proof.
  intros Hc Hl Hf Hd. unfold confined. rewrite Hc, Hl, Hf, Hd.
  split; [done|]. split; [done|]. split; [done|].
  split; [done|apply union_subseteq_r].
Qed.

Lemma confined_refl (p : string) w : confined p w w.
Proof. by apply confined_same. Qed.

Lemma confined_trans (p : string) w1 w2 w3 :
  confined p w1 w2 -> confined p w2 w3 -> confined p w1 w3.
Proof.
  intros (Hc1 & Hl1 & Hf1 & Hd1 & He1) (Hc2 & Hl2 & Hf2 & Hd2 & He2).
  unfold confined. split; [congruence|]. split; [congruence|].
  split; [|split; [by etrans|]].
  - intros q Hq. by rewrite Hf2, Hf1.
  - etrans; [exact He2|]. apply union_least; [apply union_subseteq_l|exact He1].
Qed.

Lemma confined_logAll (p : string) (es : list Entry) w :
  confined p w (logAll E es w).
Proof.
  destruct (logAll_frame E es w) as (_ & Hl & Hd & Hf & _ & Hc).
  by apply confined_same.
Qed.

Lemma confined_store (p : string) (rows : list (list string)) w :
  confined p w (store p rows w).
Proof.
  unfold confined. cbn. split; [done|]. split; [done|].
  split; [|split; [done|apply union_subseteq_r]].
  intros q Hq. by rewrite lookup_insert_ne.
Qed.

Lemma confined_mkdir (p : string) w :
  confined p w (mkdir "aws-resources/" w).
Proof.
  unfold confined. cbn. split; [done|]. split; [done|]. split; [done|].
  split; [apply union_subseteq_r|done].
Qed.

Lemma confined_bind {A B} (p : string) (m : @M Time A) (k : A -> @M Time B) w :
  confined p w (m w).2 ->
  (forall a w1, confined p w1 (k a w1).2) ->
  confined p w (bind m k w).2.
Proof.
  intros Hm Hk. unfold bind.
  destruct (m w) as [[a|e] w1]; cbn [snd] in *; [|done].
  eapply confined_trans; [exact Hm|apply Hk].
Qed.

Lemma resourceLoop_confined (p : string) hasAttrs attributes
    (resources : list (@Resource Time)) (buf : list (list string)) w :
  confined p w (resourceLoop E hasAttrs attributes resources buf w).2.
Proof.
  revert buf w. induction resources as [|r rest IH]; intros buf w.
  { apply confined_refl. }
  cbn [resourceLoop]. apply confined_bind.
  - rewrite resourceRow_spec. apply confined_logAll.
  - intros row w1. apply confined_bind.
    + unfold csvWrite. destruct (Write E row); apply confined_refl.
    + intros buf1 w2. apply IH.
Qed.

Lemma printResourcesCsv_confined (resourceTypePattern : string)
    (resources : list (@Resource Time)) hasAttrs attributes w :
  confined (csvPath E resourceTypePattern) w
    (printResourcesCsv E resourceTypePattern resources hasAttrs attributes w).2.
Proof.
  unfold printResourcesCsv. fold (csvPath E resourceTypePattern).
  destruct (MkdirAll E _); [apply confined_refl|].
  apply confined_bind; [apply confined_mkdir|].
  intros _ w1. destruct (Create E _); [apply confined_refl|].
  apply confined_bind; [apply confined_store|].
  intros _ w2. apply confined_bind.
  { unfold printHeaderCsv, csvWrite. destruct (Write E _); apply confined_refl. }
  intros buf w3. apply confined_bind; [apply resourceLoop_confined|].
  intros buf1 w4. apply confined_bind; [apply confined_store|].
  intros _ w5. by apply confined_same.
Qed.

Lemma clientBody_confined (p rType : string) attributes providers kc
    (resources : list (@Resource Time)) hasAttrs w :
  confined p w (clientBody E rType attributes providers kc resources hasAttrs w).2.
Proof.
  unfold clientBody. destruct kc as [key client].
  destruct (SetAccountID E client) as [client' [err|]].
  { by apply confined_same. }
  destruct (ListResourcesByType E client' rType) as [res [err|]].
  { by apply confined_same. }
  destruct (HasAttributes E attributes rType _) as [m [err|]].
  { by apply confined_same. }
  destruct (0 <? size m)%nat; by apply confined_same.
Qed.

Lemma clientLoop_confined (p rType : string) attributes providers clients
    (resources : list (@Resource Time)) hasAttrs w :
  confined p w (clientLoop E rType attributes providers clients resources hasAttrs w).2.
Proof.
  revert resources hasAttrs w.
  induction clients as [|kc rest IH]; intros resources hasAttrs w.
  { apply confined_refl. }
  cbn [clientLoop]. apply confined_bind; [apply clientBody_confined|].
  intros st w1. apply IH.
Qed.

Lemma typeLoop_confined (resourceTypePattern : string) attributes clients
    providers (matchedTypes : list string) w :
  confined (csvPath E resourceTypePattern) w
    (typeLoop E resourceTypePattern attributes clients providers matchedTypes w).2.
Proof.
  revert w. induction matchedTypes as [|rType rest IH]; intros w.
  { apply confined_refl. }
  cbn [typeLoop]. apply confined_bind; [|intros _ w1; apply IH].
  unfold typeBody. apply confined_bind; [apply clientLoop_confined|].
  intros [resources hasAttrs] w1.
  destruct (length resources =? 0)%nat;
    [apply confined_refl|apply printResourcesCsv_confined].
Qed.

Lemma printResource_confined (resourceTypePattern : string) attributes
    clients providers w :
  confined (csvPath E resourceTypePattern) w
    (printResource E resourceTypePattern attributes clients providers w).2.
Proof.
  unfold printResource.
  destruct (MatchSupportedTypes E resourceTypePattern) as [ts [err|]].
  { by apply confined_same. }
  apply confined_bind; [|intros _ w1; apply typeLoop_confined].
  destruct (length ts =? 0)%nat; by apply confined_same.
Qed.

(** X1: whatever happens in it (return or panic, any failure of a client
    or of the file system), [printResource] changes no file other than the
    one at filepath.Join of aws-resources/ and <pattern>.csv, removes no
    directory and creates none but aws-resources/, closes no provider and
    leaves the log level as it is. *)
Theorem X1_printResource_touches_one_file (resourceTypePattern : string)
    attributes clients providers w :
  let w' := (printResource E resourceTypePattern attributes clients providers w).2 in
  (forall path : string,
      path <> Join E "aws-resources/" (resourceTypePattern +:+ ".csv") ->
      files w' !! path = files w !! path) /\
  dirs w ⊆ dirs w' /\ dirs w' ⊆ {["aws-resources/"%string]} ∪ dirs w /\
  closed w' = closed w /\ logLevel w' = logLevel w.
Proof.
  intros w'. subst w'.
  destruct (printResource_confined resourceTypePattern attributes clients
              providers w) as (Hcl & Hl & Hf & Hd & He).
  split; [exact Hf|]. split; [exact Hd|]. split; [exact He|]. by split.
Qed.

(** *** The exits of [mainExitCode] *)

(** X2: with --version the process prints the version between the two
    blank lines and exits with status 0, whatever the other flags are, also
    when --profiles and --all-profiles are both given: nothing goes to the
    error stream, no pool is built, no file is touched and no provider is
    closed. *)
Theorem X2_version_comes_first (fl : Flags) w :
  version fl = true ->
  exists w',
    main E fl w = (0, w') /\
    stdout w' = stdout w ++ [nl; BuildVersionString E +:+ nl; nl] /\
    stderr w' = stderr w /\ files w' = files w /\ dirs w' = dirs w /\
    hydrated w' = hydrated w /\ closed w' = closed w.
Proof.
  intros Hv. unfold main, mainExitCode, bind, defer.
  cbn [print modify]. rewrite Hv.
  destruct (logDebug fl); eexists; (split; [reflexivity|]); cbn;
    rewrite <- ?app_assoc; by repeat split.
Qed.

Lemma main_exclusive_flags (fl : Flags) w :
  version fl = false ->
  profiles fl <> None ->
  allProfilesFlag fl = true ->
  exists w',
    main E fl w = (1, w') /\
    stderr w' = stderr w ++
      [RedString E flagsMessage; nl +:+ TrimSpace help +:+ nl; PrintDefaults E] /\
    stdout w' = stdout w ++ [nl; nl] /\
    files w' = files w /\ dirs w' = dirs w /\
    hydrated w' = hydrated w /\ closed w' = closed w.
Proof.
  intros Hv Hp Ha. unfold main, mainExitCode, bind, defer.
  cbn [print modify]. rewrite Hv, Ha.
  rewrite bool_decide_eq_true_2 by done.
  destruct (logDebug fl); eexists; (split; [reflexivity|]); cbn;
    rewrite <- ?app_assoc; by repeat split.
Qed.

(** X3: --profiles together with --all-profiles (and no --version) ends
    the process with status 1 after three writes to the error stream: the
    message, the help text between two line breaks, and the defaults of the
    flags.  The environment is not consulted, no pool is built, no file is
    touched. *)
Theorem X3_exclusive_flags_exit_1 (fl : Flags) w :
  version fl = false ->
  profiles fl <> None ->
  allProfilesFlag fl = true ->
  exists w',
    main E fl w = (1, w') /\
    stderr w' = stderr w ++
      [RedString E flagsMessage; nl +:+ TrimSpace help +:+ nl; PrintDefaults E] /\
    stdout w' = stdout w ++ [nl; nl] /\
    files w' = files w /\ dirs w' = dirs w /\
    hydrated w' = hydrated w /\ closed w' = closed w.
Proof. apply main_exclusive_flags. Qed.

(** The pools: either both are built, or [runPools] returns 1 after a
    message and leaves the disk, the hydrations and the providers alone. *)
Lemma runPools_cases (fl : Flags) (ps : option (list string)) w :
  (exists clients providers,
      NewAWSClientPool E ps (regions fl) = (clients, None) /\
      NewProviderPool E (map fst clients) "2.68.0" "~/.awsls" (10 * 1000000000)
        = (providers, None)) \/
  (exists w',
      runPools E fl ps w = (Returned 1, w') /\
      files w' = files w /\ dirs w' = dirs w /\
      hydrated w' = hydrated w /\ closed w' = closed w /\
      stdout w' = stdout w /\ length (stderr w') = S (length (stderr w))).
Proof.
  unfold runPools.
  destruct (NewAWSClientPool E ps (regions fl)) as [clients [err|]] eqn:Hc.
  { right. eexists. split; [reflexivity|]. cbn.
    rewrite length_app. cbn. repeat split; lia. }
  destruct (NewProviderPool E (map fst clients) _ _ _)
    as [providers [err|]] eqn:Hp.
  - right. unfold bind. cbn [SetLevel modify].
    destruct (logDebug fl); eexists; (split; [reflexivity|]); cbn;
      rewrite length_app; cbn; repeat split; lia.
  - left. by exists clients, providers.
Qed.

(** Without --version and with flags that do not exclude each other,
    [mainExitCode] hands the profiles it has found to [runPools]. *)
Lemma mainExitCode_pools (fl : Flags) (ps : option (list string)) w :
  version fl = false ->
  ~ (profiles fl <> None /\ allProfilesFlag fl = true) ->
  discovered E fl = Some ps ->
  mainExitCode E fl w =
  let '(o, w1) :=
    runPools E fl ps
      (if logDebug fl then level DebugLevel (put nl w) else put nl w) in
  (o, put nl w1).
Proof.
  intros Hv Hvalid Hps.
  unfold mainExitCode, discovered in *. unfold bind at 1.
  cbn [print modify]. unfold defer. unfold bind at 1. rewrite Hv.
  destruct fl as [dbg allp profs regs ver];
    cbn [logDebug allProfilesFlag profiles regions version] in *.
  destruct allp.
  - destruct profs as [profs|]; [exfalso; by apply Hvalid|].
    rewrite bool_decide_eq_false_2 by (intros H; by apply H).
    cbn [andb negb]. rewrite ?andb_false_r.
    destruct (GetAWSProfiles E _) as [[found|] [err|]]; try done.
    injection Hps as <-. by destruct dbg.
  - rewrite ?andb_false_r. cbn [negb]. rewrite ?andb_true_r.
    destruct profs as [profs|].
    + rewrite bool_decide_eq_false_2 in * by done.
      injection Hps as <-. by destruct dbg.
    + rewrite bool_decide_eq_true_2 in * by done.
      destruct (LookupEnv E "AWS_PROFILE") as [env|]; injection Hps as <-;
        by destruct dbg.
Qed.

(** Without --version: either the set-up succeeds, or the process exits
    with status 1 and leaves the disk, the hydrations and the providers
    alone. *)
Lemma main_setup_cases (fl : Flags) w :
  version fl = false ->
  (exists clients providers, setupOK E fl clients providers) \/
  (exists w',
      main E fl w = (1, w') /\
      files w' = files w /\ dirs w' = dirs w /\
      hydrated w' = hydrated w /\ closed w' = closed w /\
      stdout w' = stdout w ++ [nl; nl] /\
      (length (stderr w) < length (stderr w'))%nat).
Proof.
  intros Hv.
  destruct (decide (profiles fl <> None /\ allProfilesFlag fl = true))
    as [[Hp Ha]|Hvalid].
  { right. destruct (main_exclusive_flags fl w Hv Hp Ha)
      as (w' & Hm & He & Ho & Hf & Hd & Hh & Hc).
    exists w'. rewrite He, length_app. cbn. repeat split; try done. lia. }
  destruct (discovered E fl) as [ps|] eqn:Hps.
  - set (debug := fun w0 : @World Time =>
                    if logDebug fl then level DebugLevel w0 else w0).
    assert (Hmain : mainExitCode E fl w =
              let '(o, w1) := runPools E fl ps (debug (put nl w)) in (o, put nl w1))
      by (by apply mainExitCode_pools).
    destruct (runPools_cases fl ps (debug (put nl w)))
      as [(clients & providers & Hc & Hp)|(w1 & Hrun & Hf & Hd & Hh & Hc & Ho & He)].
    + left. exists clients, providers. split; [done|]. split; [done|].
      by exists ps.
    + right. exists (put nl w1). unfold main. rewrite Hmain, Hrun.
      split; [done|]. cbn. rewrite Hf, Hd, Hh, Hc, Ho, He.
      unfold debug. destruct (logDebug fl); cbn;
        rewrite <- ?app_assoc; repeat split; try done; lia.
  - right. unfold main, mainExitCode, discovered in *. unfold bind at 1.
    cbn [print modify]. unfold defer. unfold bind at 1. rewrite Hv.
    destruct fl as [dbg allp profs regs ver];
      cbn [logDebug allProfilesFlag profiles regions version] in *.
    destruct allp.
    + destruct profs as [profs|]; [exfalso; by apply Hvalid|].
      rewrite bool_decide_eq_false_2 by (intros H; by apply H).
      cbn [andb negb]. rewrite ?andb_false_r.
      destruct (GetAWSProfiles E _) as [[found|] [err|]]; try done;
        destruct dbg; cbn; eexists; (split; [reflexivity|]); cbn;
        rewrite <- ?app_assoc, ?length_app; cbn; repeat split; try done; lia.
    + destruct profs as [profs|].
      * by rewrite bool_decide_eq_false_2 in Hps.
      * rewrite bool_decide_eq_true_2 in Hps by done.
        by destruct (LookupEnv E "AWS_PROFILE").
Qed.

(** X4: without --version, the exit status is 1 exactly when the set-up
    fails: the flags exclude each other, the profiles of --all-profiles
    cannot be loaded or are none, or one of the two pools cannot be built.
    In that case something was written to the error stream, and no file,
    directory, hydration or provider was touched. *)
Theorem X4_exit_1_is_a_failed_setup (fl : Flags) w :
  version fl = false ->
  ((main E fl w).1 = 1 <->
   ~ exists clients providers, setupOK E fl clients providers) /\
  ((main E fl w).1 = 1 ->
   let w' := (main E fl w).2 in
   (length (stderr w) < length (stderr w'))%nat /\
   files w' = files w /\ dirs w' = dirs w /\
   hydrated w' = hydrated w /\ closed w' = closed w).
Proof.
  intros Hv.
  assert (Hsetup : forall clients providers,
            setupOK E fl clients providers -> (main E fl w).1 <> 1).
  { intros clients providers Hs. rewrite (main_run E _ clients providers) by done.
    by destruct (printResource _ _ _ _ _ _) as [[[]|e] w1]. }
  destruct (main_setup_cases fl w Hv)
    as [(clients & providers & Hs)|(w' & Hm & Hf & Hd & Hh & Hc & _ & He)].
  - split.
    + split; [intros H1; by apply Hsetup in Hs|].
      intros Hno. exfalso. apply Hno. by exists clients, providers.
    + intros H1. by apply Hsetup in Hs.
  - rewrite Hm. cbn [fst snd]. split; [|done].
    split; [|done]. intros _ (clients & providers & Hs).
    apply Hsetup in Hs. by rewrite Hm in Hs.
Qed.

(** X5: once both pools are built, the deferred call closes every
    provider of the pool on every way out of [mainExitCode], also when
    [printResource] panics; the exit status is then 0 or 2, and the blank
    line of the deferred print is the last thing on the standard output. *)
Theorem X5_providers_closed_on_every_path (fl : Flags) clients providers w :
  setupOK E fl clients providers ->
  let w' := (main E fl w).2 in
  closed w' = dom providers ∪ closed w /\
  last (stdout w') = Some nl /\
  ((main E fl w).1 = 0 \/ (main E fl w).1 = 2) /\
  ((main E fl w).1 = 2 <->
   exists (e : error) w1, mainExitCode E fl w = (Panicked e, w1)).
Proof.
  intros Hs w'. subst w'.
  rewrite (main_run E _ clients providers) by done.
  rewrite (mainExitCode_run E _ clients providers) by done.
  pose proof (printResource_confined "aws_instance"
                ["private_ip"; "public_ip"; "tags"]%string clients providers
                (started fl w)) as (Hc & _).
  destruct (started_frame fl w) as (_ & _ & _ & Hst).
  destruct (printResource _ _ _ _ _ _) as [[[]|e] w1]; cbn [fst snd] in *;
    (split; [cbn; by rewrite Hc, Hst|]);
    (split; [cbn; by rewrite last_snoc|]).
  - split; [by left|]. split; [done|]. by intros (e & w2 & ?).
  - split; [by right|]. split; [|done]. intros _. by eexists _, _.
Qed.

(** *** One client, one type *)

(** X6: when the listing of a client fails, the failure is reported on the
    error stream and the loop goes on with the next client; the resources
    collected so far and the support map are left exactly as they were (the
    schema of that client is not queried), unlike a failed schema query,
    which assigns the support map. *)
Theorem X6_listing_failure_skips_client (rType : string) attributes providers kc
    (rest : list (AWSClientKey * Client))
    (resources : list (@Resource Time)) hasAttrs w (err : error) :
  accountOK E kc ->
  (listing E rType kc).2 = Some err ->
  clientLoop E rType attributes providers (kc :: rest) resources hasAttrs w =
  clientLoop E rType attributes providers rest resources hasAttrs
    (say (RedString E ("Error " +:+ rType +:+ ": " +:+ err +:+ nl)) w).
Proof.
  intros Hacc Hlist.
  cbn [clientLoop]. unfold bind. rewrite clientBody_ok by done.
  unfold collects, mapAfter, clientEffect. rewrite Hlist.
  by rewrite app_nil_r.
Qed.

Lemma trace_filter {A B} (h : A -> bool) (f : A -> B) (l : list A) :
  flat_map (fun a => if h a then [f a] else []) l = map f (List.filter h l).
Proof.
  induction l as [|a l IH]; [done|]. cbn. rewrite IH. by destruct (h a).
Qed.

(** X7: for one resource type, [resource.GetStates] is called once for
    each client whose listing and schema query succeed with a non-empty
    support map, in the order of the loop, each time on the listing of that
    client alone and not on the collection gathered so far, with the whole
    provider pool; what the call returns is appended to the collection. *)
Theorem X7_hydration_is_per_client (resourceTypePattern rType : string)
    attributes clients providers w :
  Forall (accountOK E) clients ->
  hydrated (typeBody E resourceTypePattern attributes clients providers rType w).2
  = hydrated w ++
    map (fun kc => (listing E rType kc).1)
        (List.filter (hydrates E rType attributes providers) clients) /\
  forall kc (resources0 : list (@Resource Time)) hasAttrs0 w0,
    kc ∈ clients ->
    (listing E rType kc).2 = None ->
    (schema E rType attributes providers kc).2 = None ->
    (0 < size (schema E rType attributes providers kc).1)%nat ->
    clientBody E rType attributes providers kc resources0 hasAttrs0 w0 =
    (Returned (resources0 ++ GetStates E (listing E rType kc).1 providers,
               (schema E rType attributes providers kc).1),
     hydration (listing E rType kc).1 w0).
Proof.
  intros Hok. split.
  - rewrite typeBody_hydrated by done. by rewrite trace_filter.
  - intros kc resources0 hasAttrs0 w0 Hin Hl Hs Hsize.
    rewrite Forall_forall in Hok. rewrite clientBody_ok by (by apply Hok).
    unfold collects, mapAfter, clientEffect. rewrite Hl, Hs.
    apply Nat.ltb_lt in Hsize. by rewrite Hsize.
Qed.

Lemma clientEffect_stderr (rType : string) attributes providers clients w :
  stderr (fold_left (clientEffect E rType attributes providers) clients w) =
  stderr w ++ flat_map (complaint E rType attributes providers) clients.
Proof.
  revert w. induction clients as [|kc rest IH]; intros w; cbn [fold_left flat_map].
  { by rewrite app_nil_r. }
  rewrite IH. unfold clientEffect, complaint.
  destruct ((listing E rType kc).2);
    [unfold say; cbn [stderr]; by rewrite <- app_assoc|].
  destruct ((schema E rType attributes providers kc).2);
    [unfold say; cbn [stderr]; by rewrite <- app_assoc|].
  by destruct (0 <? size _)%nat.
Qed.

Lemma specLog_debug hasAttrs attributes r :
  Forall (fun e : Entry =>
            entryLevel e = DebugLevel /\
            entryMessage e = "failed to get attribute"%string)
         (specLog E hasAttrs attributes r).
Proof.
  unfold specLog. induction attributes as [|attr more IH]; [constructor|].
  cbn [flat_map]. apply Forall_app. split; [|done].
  destruct (hasAttrs !! attr), ((GetAttribute E attr r).2); repeat constructor.
Qed.

Lemma handled_debug (threshold : Level) (es : list Entry) :
  Forall (fun e : Entry =>
            entryLevel e = DebugLevel /\
            entryMessage e = "failed to get attribute"%string) es ->
  Forall (fun e : Entry =>
            entryLevel e = DebugLevel /\
            entryMessage e = "failed to get attribute"%string)
         (List.filter (handled threshold) es) /\
  (threshold <> DebugLevel -> List.filter (handled threshold) es = []).
Proof.
  induction 1 as [|e es [He Hm] _ [IHf IHn]]; [by split|].
  cbn [List.filter]. split.
  - destruct (handled threshold e); [by constructor|done].
  - intros Hne. unfold handled at 1. rewrite He.
    destruct threshold; cbn; [done|by apply IHn..].
Qed.

(** What the export adds to the error stream, whether it returns or
    panics: the lines of the handler for the debug entries, none unless the
    level of the logger is Debug. *)
Lemma resourceLoop_stderr hasAttrs attributes (resources : list (@Resource Time))
    (buf : list (list string)) w (o : Outcome (list (list string))) w' :
  resourceLoop E hasAttrs attributes resources buf w = (o, w') ->
  exists entries : list Entry,
    stderr w' = stderr w ++ map (HandleLog E) entries /\
    Forall (fun e : Entry =>
              entryLevel e = DebugLevel /\
              entryMessage e = "failed to get attribute"%string) entries /\
    (logLevel w <> DebugLevel -> entries = []).
Proof.
  revert buf w. induction resources as [|r rest IH]; intros buf w.
  { cbn. intros [= _ <-]. exists []. by rewrite app_nil_r. }
  cbn [resourceLoop]. unfold bind at 1. rewrite resourceRow_spec.
  unfold bind at 1. unfold csvWrite.
  destruct (handled_debug (logLevel w) _ (specLog_debug hasAttrs attributes r))
    as [Hf Hn].
  destruct (logAll_frame E (specLog E hasAttrs attributes r) w)
    as (_ & Hlev & _).
  destruct (Write E _); cbn [panic ret].
  - intros [= _ <-]. eexists. by rewrite logAll_stderr.
  - intros Hrest. apply IH in Hrest as (entries & -> & Hd & Hnone).
    exists (List.filter (handled (logLevel w)) (specLog E hasAttrs attributes r)
            ++ entries).
    rewrite logAll_stderr, map_app, <- app_assoc. split; [done|].
    split; [by apply Forall_app|].
    intros Hne. rewrite Hn by done. apply Hnone. by rewrite Hlev.
Qed.

Lemma printResourcesCsv_stderr (resourceTypePattern : string)
    (resources : list (@Resource Time)) hasAttrs attributes w
    (o : Outcome unit) w' :
  printResourcesCsv E resourceTypePattern resources hasAttrs attributes w = (o, w') ->
  exists entries : list Entry,
    stderr w' = stderr w ++ map (HandleLog E) entries /\
    Forall (fun e : Entry =>
              entryLevel e = DebugLevel /\
              entryMessage e = "failed to get attribute"%string) entries /\
    (logLevel w <> DebugLevel -> entries = []).
Proof.
  assert (Hnone : exists entries : list Entry,
    stderr w = stderr w ++ map (HandleLog E) entries /\
    Forall (fun e : Entry =>
              entryLevel e = DebugLevel /\
              entryMessage e = "failed to get attribute"%string) entries /\
    (logLevel w <> DebugLevel -> entries = [])).
  { exists []. by rewrite app_nil_r. }
  unfold printResourcesCsv.
  destruct (MkdirAll E _); [by intros [= _ <-]|].
  unfold bind at 1. cbn [addDir modify].
  destruct (Create E _); [by intros [= _ <-]|].
  unfold bind at 1. cbn [setFile modify].
  unfold bind at 1. unfold printHeaderCsv, csvWrite.
  destruct (Write E _); [by intros [= _ <-]|]. cbn [ret].
  unfold bind at 1.
  destruct (resourceLoop E hasAttrs attributes resources _ _)
    as [[buf|e] w2] eqn:Hloop;
    apply resourceLoop_stderr in Hloop as (entries & Herr & Hd & Hn);
    cbn in Herr, Hn.
  - unfold bind, print, modify. intros [= _ <-]. by exists entries.
  - intros [= _ <-]. by exists entries.
Qed.

(** X8: for one resource type whose clients all resolve their account
    identity, the error stream receives, in the order of the loop, exactly
    one message for each client whose listing or schema query fails, and
    nothing for the others.  After these come only the lines that the log
    handler writes for the debug entries of the export that follows,
    whether it returns or panics, and there is none unless the level of the
    logger is Debug, as --debug sets it. *)
Theorem X8_one_message_per_failing_client (resourceTypePattern rType : string)
    attributes clients providers w :
  Forall (accountOK E) clients ->
  (exists entries : list Entry,
      stderr (typeBody E resourceTypePattern attributes clients providers rType w).2
      = stderr w ++ flat_map (complaint E rType attributes providers) clients
        ++ map (HandleLog E) entries /\
      Forall (fun e : Entry =>
                entryLevel e = DebugLevel /\
                entryMessage e = "failed to get attribute"%string) entries /\
      (logLevel w <> DebugLevel -> entries = [])) /\
  forall kc,
    (length (complaint E rType attributes providers kc) <= 1)%nat /\
    (complaint E rType attributes providers kc = [] <->
     (listing E rType kc).2 = None /\
     (schema E rType attributes providers kc).2 = None).
Proof.
  intros Hok. split.
  - rewrite typeBody_clients by done. cbn zeta.
    destruct (clientEffect_frame E rType attributes providers clients w)
      as (_ & Hlev & _).
    destruct (length _ =? 0)%nat.
    { exists []. cbn [snd map]. rewrite clientEffect_stderr.
      by rewrite app_nil_r. }
    destruct (printResourcesCsv E _ _ _ _ _) as [o w'] eqn:Hp.
    apply printResourcesCsv_stderr in Hp as (entries & Herr & Hd & Hn).
    exists entries. cbn [snd]. rewrite Herr, clientEffect_stderr, <- app_assoc.
    split; [done|]. split; [done|]. intros Hne. apply Hn. by rewrite Hlev.
  - intros kc. unfold complaint.
    destruct ((listing E rType kc).2); [cbn; split; [lia|]; by split; [|intros []]|].
    destruct ((schema E rType attributes providers kc).2);
      cbn; (split; [lia|]); split; try done; by intros [].
Qed.

(** X9: when the clients of a type contribute no resource (every listing
    is empty or fails, or every schema query fails), nothing is exported:
    the iteration returns, the file of an earlier run is neither truncated
    nor rewritten, no directory is created and nothing is printed on the
    standard output.  (Hydrating no resource is taken to give none.) *)
Theorem X9_empty_collection_writes_nothing (resourceTypePattern rType : string)
    attributes clients providers w :
  Forall (accountOK E) clients ->
  Forall (fun kc =>
    (listing E rType kc).2 <> None \/
    (schema E rType attributes providers kc).2 <> None \/
    (listing E rType kc).1 = []) clients ->
  GetStates E [] providers = [] ->
  exists w',
    typeBody E resourceTypePattern attributes clients providers rType w
      = (Returned tt, w') /\
    files w' = files w /\ dirs w' = dirs w /\
    stdout w' = stdout w /\ logged w' = logged w.
Proof.
  intros Hok Hnone Hstates.
  assert (Hnil : flat_map (collects E rType attributes providers) clients = []).
  { induction Hnone as [|kc rest Hkc _ IH]; [done|].
    cbn [flat_map]. rewrite IH by (by apply Forall_cons in Hok as [_ ?]).
    rewrite app_nil_r. unfold collects.
    destruct ((listing E rType kc).2); [done|].
    destruct ((schema E rType attributes providers kc).2); [done|].
    destruct Hkc as [?|[?|Hempty]]; [done|done|].
    rewrite Hempty. by destruct (0 <? size _)%nat. }
  eexists. split; [by apply typeBody_nothing|].
  by destruct (clientEffect_frame E rType attributes providers clients w)
    as (-> & _ & -> & -> & -> & _).
Qed.

(** X10: the support map is assigned by a schema query also when the query
    fails.  When the last client whose listing succeeds fails its schema
    query and the query hands back an empty map with its error, the export
    is run with the empty map: every attribute column of every row built
    reads N/A, also for the resources of earlier clients that
    [resource.GetStates] hydrated; the file holds what the final flush lets
    through of these rows. *)
Theorem X10_failed_last_query_blanks_every_row (resourceTypePattern rType : string)
    attributes providers (before : list (AWSClientKey * Client)) kc
    (after : list (AWSClientKey * Client)) w (err : error) :
  Forall (accountOK E) (before ++ kc :: after) ->
  (listing E rType kc).2 = None ->
  schema E rType attributes providers kc = (∅, Some err) ->
  Forall (fun kc' => (listing E rType kc').2 <> None) after ->
  let clients := before ++ kc :: after in
  let resources := flat_map (collects E rType attributes providers) before in
  (exists w1,
      clientLoop E rType attributes providers clients [] ∅ w
      = (Returned (resources, ∅), w1)) /\
  (resources <> [] ->
   typeBody E resourceTypePattern attributes clients providers rType w =
   printResourcesCsv E resourceTypePattern resources ∅ attributes
     (fold_left (clientEffect E rType attributes providers) clients w)) /\
  (forall r w0, exists w1,
      resourceRow E ∅ attributes r w0
      = (Returned (unsupportedRow E attributes r), w1)) /\
  (fsOK E resourceTypePattern -> resources <> [] ->
   exists w',
     typeBody E resourceTypePattern attributes clients providers rType w
       = (Returned tt, w') /\
     files w' !! csvPath E resourceTypePattern =
     Some (Flush E (specHeader attributes ::
                    map (unsupportedRow E attributes) resources)).1).
Proof.
  intros Hok Hkc Hschema Hafter clients resources. subst clients resources.
  assert (Hc : flat_map (collects E rType attributes providers)
                 (before ++ kc :: after)
               = flat_map (collects E rType attributes providers) before).
  { rewrite flat_map_app. cbn [flat_map].
    assert (Hkc0 : collects E rType attributes providers kc = []).
    { unfold collects. by rewrite Hkc, Hschema. }
    rewrite Hkc0, (collects_nothing E rType attributes providers after).
    - by rewrite app_nil_r.
    - eapply Forall_impl; [exact Hafter|]. intros kc' ?. by left. }
  assert (Hm : fold_left (mapAfter E rType attributes providers)
                 (before ++ kc :: after) ∅ = ∅).
  { by rewrite (mapAfter_last E _ _ _ _ _ _ _ Hkc Hafter), Hschema. }
  split; [|split; [|split]].
  - eexists. rewrite clientLoop_ok by done. cbn [app]. by rewrite Hc, Hm.
  - intros Hne. rewrite typeBody_clients by done. cbn zeta.
    rewrite Hc, Hm. by rewrite length_eqb_0.
  - intros r w0. eexists. rewrite resourceRow_spec. by rewrite specRow_empty.
  - intros Hfs Hne. eexists. split.
    { apply typeBody_export; [done|done|by rewrite Hc]. }
    rewrite exported_files, lookup_insert_eq, Hm, Hc.
    rewrite (map_ext _ (unsupportedRow E attributes)); [done|].
    intros r. apply specRow_empty.
Qed.

(** *** Several types, one file *)

Lemma typeLoop_ok (resourceTypePattern : string) attributes clients providers
    (matchedTypes : list string) w :
  fsOK E resourceTypePattern ->
  Forall (accountOK E) clients ->
  typeLoop E resourceTypePattern attributes clients providers matchedTypes w =
  (Returned tt,
   fold_left (typeWorld E resourceTypePattern attributes clients providers)
     matchedTypes w).
Proof.
  intros Hfs Hok. revert w.
  induction matchedTypes as [|rType rest IH]; intros w; [done|].
  cbn [typeLoop fold_left]. unfold bind.
  rewrite typeBody_clients by done. cbn zeta. unfold typeWorld at 2.
  destruct (length _ =? 0)%nat; [apply IH|].
  rewrite printResourcesCsv_ok by done. apply IH.
Qed.

Lemma typeWorld_empty_files (resourceTypePattern : string) attributes clients
    providers (after : list string) w :
  Forall (fun rType =>
    flat_map (collects E rType attributes providers) clients = []) after ->
  files (fold_left (typeWorld E resourceTypePattern attributes clients providers)
           after w) = files w.
Proof.
  intros Hafter. revert w.
  induction Hafter as [|rType rest Hnil _ IH]; intros w; [done|].
  cbn [fold_left]. rewrite IH. unfold typeWorld. rewrite Hnil. cbn.
  by destruct (clientEffect_frame E rType attributes providers clients w)
    as (_ & _ & _ & _ & -> & _).
Qed.

(** X11: every matched type is exported to the same file, the one named
    after the pattern, so a later type replaces what an earlier one wrote:
    after [printResource], the file holds what the final flush let through
    of the header and the rows of the last matched type that has resources;
    what the types before it wrote has no part in it. *)
Theorem X11_later_type_replaces_earlier (resourceTypePattern rType : string)
    attributes clients providers (before after : list string) w :
  fsOK E resourceTypePattern ->
  Forall (accountOK E) clients ->
  MatchSupportedTypes E resourceTypePattern = (before ++ rType :: after, None) ->
  flat_map (collects E rType attributes providers) clients <> [] ->
  Forall (fun rType' =>
    flat_map (collects E rType' attributes providers) clients = []) after ->
  exists w',
    printResource E resourceTypePattern attributes clients providers w
      = (Returned tt, w') /\
    files w' !! csvPath E resourceTypePattern =
    Some (Flush E
            (specHeader attributes ::
             map (specRow E
                    (fold_left (mapAfter E rType attributes providers) clients ∅)
                    attributes)
                 (flat_map (collects E rType attributes providers) clients))).1.
Proof.
  intros Hfs Hok Hm Hne Hafter. eexists. split.
  - unfold printResource. rewrite Hm. unfold bind at 1.
    assert (Hlen : (length (before ++ rType :: after) =? 0)%nat = false).
    { apply length_eqb_0. by destruct before. }
    rewrite Hlen. cbn [ret]. by apply typeLoop_ok.
  - rewrite fold_left_app. cbn [fold_left].
    rewrite typeWorld_empty_files by done.
    unfold typeWorld at 1. rewrite length_eqb_0 by done.
    by rewrite exported_files, lookup_insert_eq.
Qed.

(** *** The table *)

Lemma specRow_length hasAttrs attributes r :
  length (specRow E hasAttrs attributes r) = (3 + length attributes)%nat.
Proof. unfold specRow. cbn. by rewrite length_map. Qed.

(** X12: the table is rectangular: the row built for a resource has three
    fields more than there are requested attributes, whatever the support
    map and the extraction errors, and in the table handed to the csv
    writer, one row per resource after the header, the header and every row
    have that same number of fields; the file holds what the final flush
    lets through of that table. *)
Theorem X12_rows_as_wide_as_header (resourceTypePattern : string)
    (resources : list (@Resource Time)) hasAttrs attributes w :
  (forall r w0, exists (row : list string) w1,
      resourceRow E hasAttrs attributes r w0 = (Returned row, w1) /\
      length row = (3 + length attributes)%nat) /\
  (fsOK E resourceTypePattern ->
   exists w' (table : list (list string)),
     printResourcesCsv E resourceTypePattern resources hasAttrs attributes w
       = (Returned tt, w') /\
     files w' !! csvPath E resourceTypePattern = Some (Flush E table).1 /\
     length table = S (length resources) /\
     Forall (fun row : list string =>
               length row = (3 + length attributes)%nat) table).
Proof.
  split.
  - intros r w0. eexists _, _. split; [apply resourceRow_spec|].
    apply specRow_length.
  - intros Hfs. eexists _, _. split; [by apply printResourcesCsv_ok|].
    rewrite exported_files, lookup_insert_eq. split; [done|].
    split; [cbn; by rewrite length_map|].
    constructor; [unfold specHeader; cbn; done|].
    apply Forall_forall. intros row Hin.
    apply list_elem_of_In, in_map_iff in Hin as (r & <- & _).
    apply specRow_length.
Qed.

Lemma specLog_clean hasAttrs attributes r :
  (forall attr : string, attr ∈ attributes -> is_Some (hasAttrs !! attr) ->
      (GetAttribute E attr r).2 = None) ->
  specLog E hasAttrs attributes r = [].
Proof.
  intros Hclean. unfold specLog.
  induction attributes as [|attr rest IH]; [done|].
  cbn [flat_map]. rewrite IH by (intros a Ha; apply Hclean; by right).
  destruct (hasAttrs !! attr) as [b|] eqn:Hb; [|done].
  rewrite (Hclean attr) by (by left || by eexists). done.
Qed.

(** X13: for a requested attribute that is a key of the support map and
    whose extraction succeeds, the column holds the extracted string as it
    is; and a resource none of whose supported attributes fails to extract
    adds nothing to the log. *)
Theorem X13_extracted_value_is_exported hasAttrs attributes r
    (i : nat) (attr v : string) w :
  attributes !! i = Some attr ->
  is_Some (hasAttrs !! attr) ->
  GetAttribute E attr r = (v, None) ->
  exists (row : list string) w1,
    resourceRow E hasAttrs attributes r w = (Returned row, w1) /\
    row !! (3 + i)%nat = Some v /\
    ((forall a : string, a ∈ attributes -> is_Some (hasAttrs !! a) ->
         (GetAttribute E a r).2 = None) ->
     logged w1 = logged w).
Proof.
  intros Hi [b Hb] Hget. eexists _, _. split; [apply resourceRow_spec|]. split.
  - rewrite (specRow_lookup E _ _ _ _ attr) by done.
    unfold specValue. by rewrite Hb, Hget.
  - intros Hclean. rewrite specLog_clean by done. done.
Qed.

Lemma specLog_one hasAttrs attributes r :
  length (specLog E hasAttrs attributes r)
  = length (flat_map (fun attr : string =>
              match hasAttrs !! attr, (GetAttribute E attr r).2 with
              | Some _, Some _ => [(r, attr)]
              | _, _ => []
              end) attributes) /\
  Forall (fun e : Entry =>
            entryLevel e = DebugLevel /\
            entryMessage e = "failed to get attribute"%string)
         (specLog E hasAttrs attributes r).
Proof.
  unfold specLog. induction attributes as [|attr more [IHl IHf]]; [by split|].
  cbn [flat_map]. rewrite !length_app, IHl. split.
  - by destruct (hasAttrs !! attr), ((GetAttribute E attr r).2).
  - apply Forall_app. split; [|done].
    destruct (hasAttrs !! attr), ((GetAttribute E attr r).2);
      repeat constructor.
Qed.

Lemma specLog_failures hasAttrs attributes (resources : list (@Resource Time)) :
  length (flat_map (specLog E hasAttrs attributes) resources)
  = length (failures E hasAttrs attributes resources) /\
  Forall (fun e : Entry =>
            entryLevel e = DebugLevel /\
            entryMessage e = "failed to get attribute"%string)
         (flat_map (specLog E hasAttrs attributes) resources).
Proof.
  unfold failures.
  induction resources as [|r rest [IHl IHf]]; [by split|].
  destruct (specLog_one hasAttrs attributes r) as [Hl Hf].
  cbn [flat_map]. rewrite !length_app, IHl, Hl. split; [done|].
  apply Forall_app. by split.
Qed.

(** X14: an export that the file system lets through logs exactly one
    entry for each pair of a resource and a requested attribute that is a
    key of the support map and fails to extract, each at debug severity,
    and nothing else: with no such pair the log is left as it was. *)
Theorem X14_one_debug_entry_per_failure (resourceTypePattern : string)
    (resources : list (@Resource Time)) hasAttrs attributes w :
  fsOK E resourceTypePattern ->
  exists w' (entries : list Entry),
    printResourcesCsv E resourceTypePattern resources hasAttrs attributes w
      = (Returned tt, w') /\
    logged w' = logged w ++ entries /\
    length entries = length (failures E hasAttrs attributes resources) /\
    Forall (fun e : Entry =>
              entryLevel e = DebugLevel /\
              entryMessage e = "failed to get attribute"%string) entries.
Proof.
  intros Hfs. eexists _, _. split; [by apply printResourcesCsv_ok|].
  split; [apply exported_logged|]. apply specLog_failures.
Qed.

(** X15: in the table handed to the csv writer, of which the file holds
    what the final flush lets through, the columns line up with the header
    and the rows with the collection: the header starts with TYPE, ID,
    CREATED and has the i-th requested attribute in column 3+i; the j-th
    row after it starts with
    the type and the id of the j-th resource, then its creation time in the
    layout 2006-01-02 15:04:05 or the empty string when it has none, and
    has in column 3+i the value selected for the i-th attribute. *)
Theorem X15_columns_line_up (resourceTypePattern : string)
    (resources : list (@Resource Time)) hasAttrs attributes w :
  fsOK E resourceTypePattern ->
  exists w' (header : list string) (rows : list (list string)),
    printResourcesCsv E resourceTypePattern resources hasAttrs attributes w
      = (Returned tt, w') /\
    files w' !! csvPath E resourceTypePattern
      = Some (Flush E (header :: rows)).1 /\
    take 3 header = ["TYPE"; "ID"; "CREATED"]%string /\
    forall (j : nat) r, resources !! j = Some r ->
      exists row : list string,
        rows !! j = Some row /\
        take 3 row =
          [Type_ r; ID r;
           match CreatedAt r with
           | Some t => Format E t "2006-01-02 15:04:05"%string
           | None => ""%string
           end] /\
        forall (i : nat) (attr : string), attributes !! i = Some attr ->
          header !! (3 + i)%nat = Some attr /\
          row !! (3 + i)%nat = Some (specValue E hasAttrs r attr).
Proof.
  intros Hfs. eexists _, _, _. split; [by apply printResourcesCsv_ok|].
  rewrite exported_files, lookup_insert_eq. split; [done|]. split; [done|].
  intros j r Hj. exists (specRow E hasAttrs attributes r).
  split; [by rewrite lookup_map, Hj|]. split; [done|].
  intros i attr Hi. split; [done|]. by apply specRow_lookup.
Qed.

(** *** The file system refuses *)

(** X16: when the directory cannot be created, or it can and the file
    cannot be opened, or both can and the header cannot be written,
    [printResourcesCsv] panics with that error: the message that names the
    file is not printed, nothing is logged, and in the first two cases no
    file is changed. *)
Theorem X16_file_system_failure_panics (resourceTypePattern : string)
    (resources : list (@Resource Time)) hasAttrs attributes w (err : error) :
  let outcome :=
    printResourcesCsv E resourceTypePattern resources hasAttrs attributes w in
  (MkdirAll E "aws-resources/" = Some err ->
   outcome = (Panicked err, w)) /\
  (MkdirAll E "aws-resources/" = None ->
   Create E (csvPath E resourceTypePattern) = Some err ->
   outcome = (Panicked err, mkdir "aws-resources/" w) /\
   files outcome.2 = files w /\ stdout outcome.2 = stdout w) /\
  (MkdirAll E "aws-resources/" = None ->
   Create E (csvPath E resourceTypePattern) = None ->
   Write E (["TYPE"; "ID"; "CREATED"]%string ++ attributes) = Some err ->
   outcome.1 = Panicked err /\
   stdout outcome.2 = stdout w /\ logged outcome.2 = logged w).
Proof.
  intros outcome. subst outcome. unfold printResourcesCsv.
  fold (csvPath E resourceTypePattern). split; [|split].
  - by intros ->.
  - intros -> ->. done.
  - intros -> -> Hw. unfold bind, addDir, setFile, modify, printHeaderCsv, csvWrite.
    rewrite header_fold, Hw. done.
Qed.

(** X18: the error of the final flush is never read.  When os.MkdirAll,
    os.Create and every Write of the csv writer succeed,
    [printResourcesCsv] returns and prints the line that names the file
    whatever the flush answers: the file then holds what the flush let
    through of the table, which may be nothing. *)
Theorem X18_flush_error_is_dropped (resourceTypePattern : string)
    (resources : list (@Resource Time)) hasAttrs attributes w :
  fsOK E resourceTypePattern ->
  let table :=
    specHeader attributes :: map (specRow E hasAttrs attributes) resources in
  exists w',
    printResourcesCsv E resourceTypePattern resources hasAttrs attributes w
      = (Returned tt, w') /\
    files w' !! csvPath E resourceTypePattern = Some (Flush E table).1 /\
    stdout w' = stdout w ++
      ["printed csv file into " +:+ csvPath E resourceTypePattern +:+ " " +:+ nl].
Proof.
  intros Hfs table. subst table. eexists.
  split; [by apply printResourcesCsv_ok|].
  split; [by rewrite exported_files, lookup_insert_eq|].
  unfold exported. cbn.
  by destruct (logAll_frame E
    (flat_map (specLog E hasAttrs attributes) resources)
    (store (csvPath E resourceTypePattern) [] (mkdir "aws-resources/" w)))
    as (-> & _).
Qed.

(** X17: the profiles the client pool is built for.  Profiles given with
    --profiles are handed to the pool builder as they are and AWS_PROFILE is
    not consulted; with neither --profiles nor --all-profiles it is the
    single profile of AWS_PROFILE when that is set and the nil list
    otherwise; with --all-profiles it is the list read from the
    configuration, from the file AWS_CONFIG_FILE names when it is set. *)
Theorem X17_profiles_for_the_pools (fl : Flags) w :
  version fl = false ->
  let run := fun ps : option (list string) =>
    let '(o, w1) :=
      runPools E fl ps
        (if logDebug fl then level DebugLevel (put nl w) else put nl w) in
    (o, put nl w1) in
  (forall ps : list string,
      profiles fl = Some ps -> allProfilesFlag fl = false ->
      mainExitCode E fl w = run (Some ps)) /\
  (profiles fl = None -> allProfilesFlag fl = false ->
   mainExitCode E fl w =
   run match LookupEnv E "AWS_PROFILE" with
       | Some env => Some [env]
       | None => None
       end) /\
  (forall found : list string,
      profiles fl = None -> allProfilesFlag fl = true ->
      GetAWSProfiles E
        match LookupEnv E "AWS_CONFIG_FILE" with
        | Some file => [file]
        | None => []
        end = (Some found, None) ->
      mainExitCode E fl w = run (Some found)).
Proof.
  intros Hv run. subst run. split; [|split].
  - intros ps Hp Ha. apply mainExitCode_pools; [done|by intros [_ ?]; congruence|].
    unfold discovered. rewrite Ha, Hp. by rewrite bool_decide_eq_false_2.
  - intros Hp Ha.
    apply mainExitCode_pools; [done|by intros [_ ?]; congruence|].
    unfold discovered. rewrite Ha, Hp. rewrite bool_decide_eq_true_2 by done.
    by destruct (LookupEnv E "AWS_PROFILE").
  - intros found Hp Ha Hget.
    apply mainExitCode_pools; [done|intros [Hne _]; by apply Hne|].
    unfold discovered. by rewrite Ha, Hget.
Qed.

End Further.

(** ** The further properties on the concrete installation *)

Lemma X2_witness :
  version Demo.bothAndVersion = true /\
  exists w',
    main Demo.aws Demo.bothAndVersion Demo.used = (0, w') /\
    stdout w' = [nl; "awsls dev" +:+ nl; nl] /\
    stderr w' = [] /\ files w' = files Demo.used.
Proof.
  split; [reflexivity|].
  destruct (X2_version_comes_first Demo.aws Demo.bothAndVersion Demo.used eq_refl)
    as (w' & Hmain & Hout & Herr & Hfiles & _).
  exists w'. by repeat split.
Defined.

Lemma X3_witness :
  version Demo.both = false /\ profiles Demo.both <> None /\
  allProfilesFlag Demo.both = true /\
  exists w',
    main Demo.aws Demo.both Demo.used = (1, w') /\
    length (stderr w') = 3%nat /\ files w' = files Demo.used.
Proof.
  split; [reflexivity|]. split; [discriminate|]. split; [reflexivity|].
  destruct (X3_exclusive_flags_exit_1 Demo.aws Demo.both Demo.used eq_refl)
    as (w' & Hmain & Herr & _ & Hfiles & _); [discriminate|reflexivity|].
  exists w'. split; [exact Hmain|]. split; [by rewrite Herr|exact Hfiles].
Defined.

(** A profile the pool builder does not know. *)
Lemma X4_witness :
  version (Demo.flagsFor ["unknown"]%string) = false /\
  (main Demo.aws (Demo.flagsFor ["unknown"]%string) Demo.used).1 = 1 /\
  ~ exists clients providers,
      setupOK Demo.aws (Demo.flagsFor ["unknown"]%string) clients providers.
Proof.
  assert (Hexit : (main Demo.aws (Demo.flagsFor ["unknown"]%string) Demo.used).1 = 1)
    by (vm_compute; reflexivity).
  split; [reflexivity|]. split; [exact Hexit|].
  apply (X4_exit_1_is_a_failed_setup Demo.aws
           (Demo.flagsFor ["unknown"]%string) Demo.used eq_refl).
  exact Hexit.
Defined.

(** The run that panics on the expired token still closes the three
    providers. *)
Lemma X5_witness :
  setupOK Demo.aws (Demo.flagsFor ["dev"; "expired"; "prod"]%string)
    (Demo.pool ["dev"; "expired"; "prod"]%string)
    (Demo.providersFor ["dev"; "expired"; "prod"]%string) /\
  closed (main Demo.aws (Demo.flagsFor ["dev"; "expired"; "prod"]%string)
            Demo.used).2
  = dom (Demo.providersFor ["dev"; "expired"; "prod"]%string) ∪ closed Demo.used.
Proof.
  split; [exact demo_setup_expired|].
  apply (X5_providers_closed_on_every_path Demo.aws
           (Demo.flagsFor ["dev"; "expired"; "prod"]%string)
           (Demo.pool ["dev"; "expired"; "prod"]%string)
           (Demo.providersFor ["dev"; "expired"; "prod"]%string) Demo.used
           demo_setup_expired).
Defined.

Lemma X6_witness :
  accountOK Demo.aws (Demo.key "offline", "offline"%string) /\
  (listing Demo.aws "aws_instance" (Demo.key "offline", "offline"%string)).2
    = Some "request timed out"%string /\
  clientLoop Demo.aws "aws_instance" Demo.requested
    (Demo.providersFor ["offline"; "dev"]%string)
    (Demo.pool ["offline"; "dev"]%string) [] Demo.onlyTags Demo.fresh =
  clientLoop Demo.aws "aws_instance" Demo.requested
    (Demo.providersFor ["offline"; "dev"]%string)
    (Demo.pool ["dev"]%string) [] Demo.onlyTags
    (say (RedString Demo.aws
            ("Error " +:+ "aws_instance" +:+ ": " +:+ "request timed out" +:+ nl))
       Demo.fresh).
Proof.
  split; [reflexivity|]. split; [reflexivity|].
  exact (X6_listing_failure_skips_client Demo.aws "aws_instance" Demo.requested
           (Demo.providersFor ["offline"; "dev"]%string)
           (Demo.key "offline", "offline"%string) (Demo.pool ["dev"]%string)
           [] Demo.onlyTags Demo.fresh "request timed out" eq_refl eq_refl).
Defined.

Lemma X7_witness :
  Forall (accountOK Demo.aws) (Demo.pool ["dev"; "offline"; "bare"; "prod"]%string) /\
  hydrated (typeBody Demo.aws "aws_instance" Demo.requested
              (Demo.pool ["dev"; "offline"; "bare"; "prod"]%string)
              (Demo.providersFor ["dev"; "offline"; "bare"; "prod"]%string)
              "aws_instance" Demo.fresh).2
  = [[Demo.instance "dev"]; [Demo.instance "prod"]].
Proof.
  split; [by apply demo_accounts|].
  destruct (X7_hydration_is_per_client Demo.aws "aws_instance" "aws_instance"
              Demo.requested (Demo.pool ["dev"; "offline"; "bare"; "prod"]%string)
              (Demo.providersFor ["dev"; "offline"; "bare"; "prod"]%string)
              Demo.fresh
              (demo_accounts _ ["dev"; "offline"; "bare"; "prod"]%string eq_refl))
    as [Htrace _].
  etransitivity; [exact Htrace|]. vm_compute. reflexivity.
Defined.

(** One client whose listing fails after two that are exported with a
    failing extraction each: without --debug the message of the failing
    client is all there is, with it the two lines of the handler follow. *)
Lemma X8_witness :
  Forall (accountOK Demo.aws) (Demo.pool ["prod"; "dev"; "offline"]%string) /\
  stderr (typeBody Demo.aws "aws_instance" Demo.requested
            (Demo.pool ["prod"; "dev"; "offline"]%string)
            (Demo.providersFor ["prod"; "dev"; "offline"]%string)
            "aws_instance" Demo.fresh).2
  = ["Error aws_instance: request timed out" +:+ nl] /\
  stderr (typeBody Demo.aws "aws_instance" Demo.requested
            (Demo.pool ["prod"; "dev"; "offline"]%string)
            (Demo.providersFor ["prod"; "dev"; "offline"]%string)
            "aws_instance" (Demo.verbose Demo.fresh)).2
  = ["Error aws_instance: request timed out" +:+ nl;
     "debug: failed to get attribute" +:+ nl;
     "debug: failed to get attribute" +:+ nl].
Proof.
  split; [by apply demo_accounts|]. split.
  - destruct (X8_one_message_per_failing_client Demo.aws
                "aws_instance" "aws_instance"
                Demo.requested (Demo.pool ["prod"; "dev"; "offline"]%string)
                (Demo.providersFor ["prod"; "dev"; "offline"]%string)
                Demo.fresh
                (demo_accounts _ ["prod"; "dev"; "offline"]%string eq_refl))
      as [(entries & Herr & _ & Hnone) _].
    rewrite Hnone in Herr by discriminate.
    etransitivity; [exact Herr|]. vm_compute. reflexivity.
  - vm_compute. reflexivity.
Defined.

(** A listing that fails, a listing that is empty and a schema query that
    fails: the file of the earlier run stays. *)
Lemma X9_witness :
  Forall (accountOK Demo.aws) (Demo.pool ["offline"; "empty"; "noschema"]%string) /\
  GetStates Demo.aws [] (Demo.providersFor ["offline"; "empty"; "noschema"]%string)
    = [] /\
  exists w',
    typeBody Demo.aws "aws_instance" Demo.requested
      (Demo.pool ["offline"; "empty"; "noschema"]%string)
      (Demo.providersFor ["offline"; "empty"; "noschema"]%string)
      "aws_instance" Demo.used = (Returned tt, w') /\
    files w' = files Demo.used.
Proof.
  split; [by apply demo_accounts|]. split; [reflexivity|].
  destruct (X9_empty_collection_writes_nothing Demo.aws "aws_instance" "aws_instance"
              Demo.requested (Demo.pool ["offline"; "empty"; "noschema"]%string)
              (Demo.providersFor ["offline"; "empty"; "noschema"]%string)
              Demo.used
              (demo_accounts _ ["offline"; "empty"; "noschema"]%string eq_refl))
    as (w' & Hrun & Hfiles & _).
  { constructor; [left; vm_compute; discriminate|].
    constructor; [right; right; vm_compute; reflexivity|].
    constructor; [right; left; vm_compute; discriminate|constructor]. }
  { reflexivity. }
  exists w'. by split.
Defined.

(** The instance of [dev] is hydrated, then the schema query of the next
    client fails: its row reads N/A in the three attribute columns. *)
Lemma X10_witness :
  fsOK Demo.aws "aws_instance" /\
  Forall (accountOK Demo.aws) (Demo.pool ["dev"; "noschema"; "offline"]%string) /\
  schema Demo.aws "aws_instance" Demo.requested
    (Demo.providersFor ["dev"; "noschema"; "offline"]%string)
    (Demo.key "noschema", "noschema"%string) = (∅, Some "schema unavailable"%string) /\
  exists w',
    typeBody Demo.aws "aws_instance" Demo.requested
      (Demo.pool ["dev"; "noschema"; "offline"]%string)
      (Demo.providersFor ["dev"; "noschema"; "offline"]%string)
      "aws_instance" Demo.used = (Returned tt, w') /\
    files w' !! "aws-resources/aws_instance.csv"%string =
    Some [["TYPE"; "ID"; "CREATED"; "private_ip"; "public_ip"; "tags"];
          ["aws_instance"; "i-dev"; "2020-07-01 12:00:00"; "N/A"; "N/A"; "N/A"]]%string.
Proof.
  assert (Hschema :
    schema Demo.aws "aws_instance" Demo.requested
      (Demo.providersFor ["dev"; "noschema"; "offline"]%string)
      (Demo.key "noschema", "noschema"%string) = (∅, Some "schema unavailable"%string))
    by (vm_compute; reflexivity).
  split; [apply demo_fsOK|]. split; [by apply demo_accounts|].
  split; [exact Hschema|].
  destruct (X10_failed_last_query_blanks_every_row Demo.aws
              "aws_instance" "aws_instance" Demo.requested
              (Demo.providersFor ["dev"; "noschema"; "offline"]%string)
              (Demo.pool ["dev"]%string) (Demo.key "noschema", "noschema"%string)
              (Demo.pool ["offline"]%string) Demo.used "schema unavailable"
              (demo_accounts _ ["dev"; "noschema"; "offline"]%string eq_refl)
              eq_refl Hschema) as (_ & _ & _ & Hexport).
  { constructor; [vm_compute; discriminate|constructor]. }
  destruct (Hexport (demo_fsOK _ _)) as (w' & Hrun & Hfile).
  { vm_compute. discriminate. }
  exists w'. split; [exact Hrun|].
  etransitivity; [exact Hfile|]. vm_compute. reflexivity.
Defined.

(** Two matched types with one instance each: the file holds the row of
    the second type only. *)
Lemma X11_witness :
  fsOK Demo.two "aws_*" /\
  MatchSupportedTypes Demo.two "aws_*" = (["aws_instance"; "aws_vpc"]%string, None) /\
  exists w',
    printResource Demo.two "aws_*" Demo.requested
      (Demo.pool ["dev"]%string) (Demo.providersFor ["dev"]%string) Demo.fresh
      = (Returned tt, w') /\
    files w' !! "aws-resources/aws_*.csv"%string =
    Some [["TYPE"; "ID"; "CREATED"; "private_ip"; "public_ip"; "tags"];
          ["aws_vpc"; "i-dev"; "2020-07-01 12:00:00"; "10.0.0.1"; "error"; "{}"]]%string.
Proof.
  split; [apply demo_fsOK|]. split; [reflexivity|].
  destruct (X11_later_type_replaces_earlier Demo.two "aws_*" "aws_vpc"
              Demo.requested (Demo.pool ["dev"]%string)
              (Demo.providersFor ["dev"]%string)
              ["aws_instance"%string] [] Demo.fresh
              (demo_fsOK _ _) (demo_accounts _ ["dev"]%string eq_refl) eq_refl)
    as (w' & Hrun & Hfile).
  { vm_compute. discriminate. }
  { constructor. }
  exists w'. split; [exact Hrun|].
  etransitivity; [exact Hfile|]. vm_compute. reflexivity.
Defined.

Lemma X12_witness :
  fsOK Demo.aws "aws_instance" /\
  exists w' (table : list (list string)),
    printResourcesCsv Demo.aws "aws_instance"
      [Demo.hydrate (Demo.instance "dev"); Demo.instance "prod"]
      Demo.onlyTags Demo.requested Demo.used = (Returned tt, w') /\
    files w' !! csvPath Demo.aws "aws_instance" = Some table /\
    length table = 3%nat /\
    Forall (fun row : list string => length row = 6%nat) table.
Proof.
  split; [apply demo_fsOK|].
  apply (X12_rows_as_wide_as_header Demo.aws "aws_instance"
           [Demo.hydrate (Demo.instance "dev"); Demo.instance "prod"]
           Demo.onlyTags Demo.requested Demo.used).
  apply demo_fsOK.
Defined.

Lemma X13_witness :
  Demo.requested !! 0%nat = Some "private_ip"%string /\
  is_Some (Demo.allThree !! "private_ip"%string) /\
  GetAttribute Demo.aws "private_ip" (Demo.hydrate (Demo.instance "dev"))
    = ("10.0.0.1"%string, None) /\
  exists (row : list string) w1,
    resourceRow Demo.aws Demo.allThree Demo.requested
      (Demo.hydrate (Demo.instance "dev")) Demo.fresh = (Returned row, w1) /\
    row !! 3%nat = Some "10.0.0.1"%string.
Proof.
  split; [reflexivity|]. split; [by eexists|]. split; [reflexivity|].
  destruct (X13_extracted_value_is_exported Demo.aws Demo.allThree Demo.requested
              (Demo.hydrate (Demo.instance "dev")) 0 "private_ip" "10.0.0.1"
              Demo.fresh eq_refl (ex_intro _ true eq_refl) eq_refl)
    as (row & w1 & Hrow & Hcol & _).
  exists row, w1. by split.
Defined.

(** Two hydrated instances without a public address: two entries. *)
Lemma X14_witness :
  fsOK Demo.aws "aws_instance" /\
  exists w' (entries : list Entry),
    printResourcesCsv Demo.aws "aws_instance"
      [Demo.hydrate (Demo.instance "dev"); Demo.hydrate (Demo.instance "prod")]
      Demo.allThree Demo.requested Demo.fresh = (Returned tt, w') /\
    logged w' = logged Demo.fresh ++ entries /\
    length entries = 2%nat.
Proof.
  split; [apply demo_fsOK|].
  destruct (X14_one_debug_entry_per_failure Demo.aws "aws_instance"
              [Demo.hydrate (Demo.instance "dev"); Demo.hydrate (Demo.instance "prod")]
              Demo.allThree Demo.requested Demo.fresh (demo_fsOK _ _))
    as (w' & entries & Hrun & Hlog & Hlen & _).
  exists w', entries. split; [exact Hrun|]. split; [exact Hlog|].
  etransitivity; [exact Hlen|]. vm_compute. reflexivity.
Defined.

Lemma X15_witness :
  fsOK Demo.aws "aws_instance" /\
  exists w' (header : list string) (rows : list (list string)),
    printResourcesCsv Demo.aws "aws_instance"
      [Demo.instance "dev"] Demo.onlyTags Demo.requested Demo.fresh
      = (Returned tt, w') /\
    files w' !! csvPath Demo.aws "aws_instance" = Some (header :: rows) /\
    take 3 header = ["TYPE"; "ID"; "CREATED"]%string.
Proof.
  split; [apply demo_fsOK|].
  destruct (X15_columns_line_up Demo.aws "aws_instance"
              [Demo.instance "dev"] Demo.onlyTags Demo.requested Demo.fresh
              (demo_fsOK _ _))
    as (w' & header & rows & Hrun & Hfile & Hhead & _).
  exists w', header, rows. by repeat split.
Defined.

(** The directory cannot be created; the file cannot be opened; the
    header cannot be written. *)
Lemma X16_witness :
  MkdirAll (Demo.onDisk (Some "permission denied"%string) None None) "aws-resources/"
    = Some "permission denied"%string /\
  printResourcesCsv (Demo.onDisk (Some "permission denied"%string) None None)
    "aws_instance" [Demo.instance "dev"] Demo.onlyTags Demo.requested Demo.used
  = (Panicked "permission denied", Demo.used) /\
  files (printResourcesCsv (Demo.onDisk None (Some "read-only file system"%string) None)
           "aws_instance" [Demo.instance "dev"] Demo.onlyTags Demo.requested
           Demo.used).2 = files Demo.used /\
  (printResourcesCsv (Demo.onDisk None None (Some "no space left on device"%string))
     "aws_instance" [Demo.instance "dev"] Demo.onlyTags Demo.requested
     Demo.used).1 = Panicked "no space left on device".
Proof.
  split; [reflexivity|]. split; [|split].
  - destruct (X16_file_system_failure_panics
                (Demo.onDisk (Some "permission denied"%string) None None)
                "aws_instance" [Demo.instance "dev"] Demo.onlyTags Demo.requested
                Demo.used "permission denied") as (Hmkdir & _).
    apply Hmkdir. reflexivity.
  - destruct (X16_file_system_failure_panics
                (Demo.onDisk None (Some "read-only file system"%string) None)
                "aws_instance" [Demo.instance "dev"] Demo.onlyTags Demo.requested
                Demo.used "read-only file system") as (_ & Hcreate & _).
    apply Hcreate; reflexivity.
  - destruct (X16_file_system_failure_panics
                (Demo.onDisk None None (Some "no space left on device"%string))
                "aws_instance" [Demo.instance "dev"] Demo.onlyTags Demo.requested
                Demo.used "no space left on device") as (_ & _ & Hwrite).
    apply Hwrite; reflexivity.
Defined.

Lemma X17_witness :
  version (Demo.flagsFor ["dev"]%string) = false /\
  mainExitCode Demo.aws (Demo.flagsFor ["dev"]%string) Demo.fresh =
  (let '(o, w1) :=
     runPools Demo.aws (Demo.flagsFor ["dev"]%string) (Some ["dev"%string])
       (put nl Demo.fresh) in
   (o, put nl w1)).
Proof.
  split; [reflexivity|].
  destruct (X17_profiles_for_the_pools Demo.aws (Demo.flagsFor ["dev"]%string)
              Demo.fresh eq_refl) as (Hgiven & _).
  exact (Hgiven ["dev"%string] eq_refl eq_refl).
Defined.

(** The three calls succeed and the flush fails: the export returns, says
    it printed the file, and the file is empty. *)
Lemma X18_witness :
  fsOK Demo.full "aws_instance" /\
  (Flush Demo.full
     (specHeader Demo.requested ::
      map (specRow Demo.full Demo.onlyTags Demo.requested) [Demo.instance "dev"])).2
    = Some "no space left on device"%string /\
  exists w',
    printResourcesCsv Demo.full "aws_instance" [Demo.instance "dev"]
      Demo.onlyTags Demo.requested Demo.used = (Returned tt, w') /\
    files w' !! "aws-resources/aws_instance.csv"%string = Some [] /\
    stdout w' = ["printed csv file into aws-resources/aws_instance.csv " +:+ nl].
Proof.
  assert (Hfs : fsOK Demo.full "aws_instance") by (by repeat split).
  split; [exact Hfs|]. split; [reflexivity|].
  destruct (X18_flush_error_is_dropped Demo.full "aws_instance"
              [Demo.instance "dev"] Demo.onlyTags Demo.requested Demo.used Hfs)
    as (w' & Hrun & Hfile & Hout).
  exists w'. split; [exact Hrun|]. split; [exact Hfile|exact Hout].
Defined.
